(** * Derived metrics of the study planner: streak and smart recommendations

    Shallow embedding of the two analytics routines of [app.py]:

    - the counting loop of [get_streak_data], which walks the rows returned
      by the streak query and counts the leading productive days;
    - the rule cascade of [get_smart_recommendations], which turns the
      overdue count, the seven-day statistics rows and the pair of lifetime
      duration averages into an ordered list of recommendation dicts.

    Both Python functions open the database themselves.  Here the query
    results ([days], [overdue_count], [stats], [time_data]) are the
    arguments of the embedded functions, and everything the Python code does
    with them after [fetchall]/[fetchone] is kept as written.

    Numbers.  SQLite integers and Python ints are [Z], without the 64-bit
    bound of SQLite or the range beyond which Python's [/] raises.  A Python
    float is modelled by the rational it denotes.  The product in the time
    rule, SQLite's [AVG] and the percentage that is printed are rounded to
    binary64 as the code rounds them ([round_binary64]).  The completion
    rate is compared with 0.6 and 0.8 as an exact quotient.  Python compares
    the double nearest to the quotient with the doubles nearest to 0.6 and
    0.8; rounding to nearest is monotone, and a quotient of two counts
    below [2 ^ 50] that is not 3/5 (or 4/5) lies further from it than the
    two rounding errors together, so both comparisons come out the same.

    Module [App], further down, models the database behind the two
    routines: the six tables, the queries the routines issue, the task,
    goal, habit and account functions, and the handlers of the task manager
    and login pages that call them.  There the two routines are run against
    a database, through the very definitions above; the statements about
    zero totals, unchecked records and the order of the streak's records
    are made there, on the rows the queries deliver. *)

From Stdlib Require Import ZArith QArith Qround Qabs Qpower List Bool String Ascii.
From Stdlib Require Import Lia Lqa.
From Stdlib Require Import DecimalString Sorted Permutation.
From Stdlib Require OrderedTypeEx.
Import ListNotations.

Local Open Scope Z_scope.

(** ** Python outcomes: a value or a raised exception *)

Module Py.

Inductive exception : Type :=
| ZeroDivisionError.

Inductive result (A : Type) : Type :=
| Returns (v : A)
| Raises (e : exception).

Arguments Returns {A} v.
Arguments Raises {A} e.

Definition bind {A B : Type} (m : result A) (k : A -> result B) : result B :=
  match m with
  | Returns v => k v
  | Raises e => Raises e
  end.

(** [a / b] on two ints: true division, raising on a zero divisor. *)
Definition truediv (a b : Z) : result Q :=
  if b =? 0 then Raises ZeroDivisionError
  else Returns (inject_Z a / inject_Z b)%Q.

(** [sum(...)] over ints: left to right, starting from 0. *)
Definition sum (xs : list Z) : Z := fold_left Z.add xs 0.

(** [str(n)] / [f"{n}"] for an int. *)
Definition str (n : Z) : string := NilEmpty.string_of_int (Z.to_int n).

(** ** Dates

    [date.today()] is a proleptic Gregorian ordinal, day 1 being
    0001-01-01, and [timedelta] arithmetic is arithmetic on ordinals. *)

(** [_DAYS_IN_MONTH] of the [datetime] module, February without its leap
    day. *)
Definition days_in_month : list Z :=
  [31; 28; 31; 30; 31; 30; 31; 31; 30; 31; 30; 31].

(** [_DAYS_BEFORE_MONTH]. *)
Definition days_before_month (month : Z) : Z :=
  sum (firstn (Z.to_nat (month - 1)) days_in_month).

(** [_ord2ymd]: year, month and day of an ordinal. *)
Definition ord2ymd (ordinal : Z) : Z * Z * Z :=
  let n := ordinal - 1 in
  let n400 := n / 146097 in
  let n := n mod 146097 in
  let n100 := n / 36524 in
  let n := n mod 36524 in
  let n4 := n / 1461 in
  let n := n mod 1461 in
  let n1 := n / 365 in
  let n := n mod 365 in
  let year := n400 * 400 + 1 + n100 * 100 + n4 * 4 + n1 in
  if (n1 =? 4) || (n100 =? 4) then (year - 1, 12, 31)
  else
    let leapyear := (n1 =? 3) && (negb (n4 =? 24) || (n100 =? 3)) in
    let month := Z.shiftr (n + 50) 5 in
    let preceding :=
      days_before_month month + (if (month >? 2) && leapyear then 1 else 0) in
    if preceding >? n then
      let month := month - 1 in
      let preceding :=
        preceding - (nth (Z.to_nat (month - 1)) days_in_month 0
                     + (if (month =? 2) && leapyear then 1 else 0)) in
      (year, month, n - preceding + 1)
    else (year, month, n - preceding + 1).

(** ["%0*d"] on a number that is not negative. *)
Definition zero_padded (width : nat) (n : Z) : string :=
  let digits := str n in
  (String.concat "" (repeat "0" (width - String.length digits)) ++ digits)%string.

(** [date.isoformat()]: ["%04d-%02d-%02d"], for the ordinals of the years 1
    to 9999, the dates the [datetime] module has. *)
Definition isoformat (ordinal : Z) : string :=
  let '(year, month, day) := ord2ymd ordinal in
  (zero_padded 4 year ++ "-" ++ zero_padded 2 month
     ++ "-" ++ zero_padded 2 day)%string.

(** [x < y] on numbers. *)
Definition lt (x y : Q) : bool :=
  match (x ?= y)%Q with
  | Lt => true
  | _ => false
  end.

(** Truth value of a number: zero is false. *)
Definition truthy (x : Q) : bool := negb (Qeq_bool x 0).

(** Rounding to the nearest integer, ties to the even one. *)
Definition round_half_even (x : Q) : Z :=
  let q := Qfloor x in
  match (2 * (Qnum x mod Zpos (Qden x))) ?= Zpos (Qden x) with
  | Lt => q
  | Gt => q + 1
  | Eq => if Z.even q then q else q + 1
  end.

(** ** Binary64 rounding

    A double is modelled by the rational it denotes.  Where the code
    computes a quotient or a product in binary64, the exact result is
    rounded to the nearest double, ties to the even significand. *)

Definition pow2 (k : Z) : Q := (2 ^ k)%Q.

(** The binade of a positive number: [2 ^ ilog2 x <= x < 2 ^ (ilog2 x + 1)]. *)
Definition ilog2 (x : Q) : Z :=
  let e := Z.log2 (Qnum x) - Z.log2 (Zpos (Qden x)) in
  if Qle_bool (pow2 e) x then e else e - 1.

(** The exponent of the spacing of the doubles around [x]: 53 significant
    bits, and the subnormal spacing [2 ^ -1074] at the bottom. *)
Definition quantum (x : Q) : Z := Z.max (ilog2 (Qabs x) - 52) (-1074).

(** Above the largest double the code has an infinity; here the value stays
    a rational beyond every double, which compares with doubles the same
    way. *)
Definition round_binary64 (x : Q) : Q :=
  let x := Qred x in
  if Qeq_bool x 0 then 0%Q
  else (inject_Z (round_half_even (x / pow2 (quantum x))) * pow2 (quantum x))%Q.

(** [f"{x:.1%}"] for the quotient [x] of two ints: the double nearest to
    [x], times 100 in binary64, printed in fixed point with one decimal
    (the decimal nearest to that double, ties to even) and a percent
    sign. *)
Definition format_percent1 (x : Q) : string :=
  let percent := round_binary64 (round_binary64 x * 100)%Q in
  let tenths := round_half_even (Qabs percent * 10)%Q in
  ((if lt x 0 then "-" else "")
     ++ str (tenths / 10) ++ "." ++ str (tenths mod 10) ++ "%")%string.

End Py.

Notation "x <- m ;; k" := (Py.bind m (fun x => k))
  (at level 61, m at next level, right associativity).

Import Py.

(** ** Rows and dicts *)

(** A row of the streak query: [(date, productive_day)]. *)
Record day_row : Type := mk_day_row {
  day_date : string;
  productive_day : Z
}.

(** A row of [get_productivity_stats]:
    [(date, total_tasks, completed_tasks, planned_time, actual_time)]. *)
Record stats_row : Type := mk_stats_row {
  stats_date : string;
  total_tasks : Z;
  completed_tasks : Z;
  planned_time : Z;
  actual_time : Z
}.

(** A recommendation dict, with its four keys. *)
Record recommendation : Type := mk_recommendation {
  rec_type : string;
  rec_title : string;
  rec_message : string;
  rec_action : string
}.

(** ** [get_streak_data]: the loop over the fetched rows *)

(** The [for] loop with [current_streak] threaded through; [break] is the
    branch that returns the counter without looking at the remaining rows. *)
Fixpoint streak_loop (days : list day_row) (current_streak : Z) : Z :=
  match days with
  | [] => current_streak
  | day_data :: rest =>
      if productive_day day_data =? 1
      then streak_loop rest (current_streak + 1)
      else current_streak
  end.

Definition get_streak_data (days : list day_row) : Z :=
  let current_streak := 0 in
  streak_loop days current_streak.

(** ** [get_smart_recommendations] *)

Definition overdue_alert (overdue_count : Z) : recommendation :=
  {| rec_type := "warning";
     rec_title := "⚠️ Overdue Tasks Alert";
     rec_message := "You have " ++ str overdue_count
       ++ " overdue tasks. Consider rescheduling or breaking them into smaller chunks.";
     rec_action := "Review overdue tasks" |}.

Definition productivity_boost (avg_completion : Q) : recommendation :=
  {| rec_type := "tip";
     rec_title := "💡 Productivity Boost";
     rec_message := "Your completion rate is " ++ format_percent1 avg_completion
       ++ ". Try breaking tasks into smaller, manageable chunks.";
     rec_action := "Optimize task planning" |}.

Definition great_performance (avg_completion : Q) : recommendation :=
  {| rec_type := "success";
     rec_title := "🎉 Great Performance!";
     rec_message := "Excellent completion rate of " ++ format_percent1 avg_completion
       ++ "! Keep up the great work!";
     rec_action := "Maintain momentum" |}.

Definition time_estimation : recommendation :=
  {| rec_type := "insight";
     rec_title := "⏰ Time Estimation";
     rec_message :=
       "You're consistently underestimating task duration. Consider adding buffer time.";
     rec_action := "Improve time estimates" |}.

(** [time_data[0] and time_data[1] and time_data[0] > time_data[1] * 1.5]:
    [None] and zero are both false; the product is a binary64 product. *)
Definition time_condition (time_data : option Q * option Q) : bool :=
  match fst time_data with
  | None => false
  | Some actual =>
      truthy actual &&
      match snd time_data with
      | None => false
      | Some estimated =>
          truthy estimated
          && lt (round_binary64 (estimated * (15 # 10))%Q) actual
      end
  end.

Definition get_smart_recommendations
    (overdue_count : Z) (stats : list stats_row)
    (time_data : option Q * option Q) : result (list recommendation) :=
  let recommendations := [] in
  (* Check for overdue tasks *)
  let recommendations :=
    if overdue_count >? 0
    then recommendations ++ [overdue_alert overdue_count]
    else recommendations in
  (* Check for productivity patterns *)
  recommendations <-
    match stats with
    | [] => Returns recommendations
    | _ :: _ =>
        let total_tasks := sum (map total_tasks stats) in
        let completed_tasks := sum (map completed_tasks stats) in
        avg_completion <-
          (if total_tasks >? 0
           then truediv completed_tasks total_tasks
           else Returns 0%Q) ;;
        if lt avg_completion (6 # 10)
        then Returns (recommendations ++ [productivity_boost avg_completion])
        else if lt (8 # 10) avg_completion
        then Returns (recommendations ++ [great_performance avg_completion])
        else Returns recommendations
    end ;;
  (* Time management suggestions *)
  let recommendations :=
    if time_condition time_data
    then recommendations ++ [time_estimation]
    else recommendations in
  Returns recommendations.

(** ** The three rules, one at a time

    Each rule appends at most one dict.  The definitions below name what
    each [if] block of [get_smart_recommendations] contributes;
    [get_smart_recommendations_rules] shows the function is their
    concatenation. *)

Definition avg_completion_of (stats : list stats_row) : Q :=
  let total := sum (map total_tasks stats) in
  let completed := sum (map completed_tasks stats) in
  if total >? 0 then (inject_Z completed / inject_Z total)%Q else 0%Q.

Definition overdue_rule (overdue_count : Z) : list recommendation :=
  if overdue_count >? 0 then [overdue_alert overdue_count] else [].

Definition completion_rule (stats : list stats_row) : list recommendation :=
  match stats with
  | [] => []
  | _ :: _ =>
      let avg_completion := avg_completion_of stats in
      if lt avg_completion (6 # 10) then [productivity_boost avg_completion]
      else if lt (8 # 10) avg_completion then [great_performance avg_completion]
      else []
  end.

Definition time_rule (time_data : option Q * option Q) : list recommendation :=
  if time_condition time_data then [time_estimation] else [].

(** A dict produced by the completion-rate step: the tip or the success. *)
Definition completion_rate_rec (r : recommendation) : Prop :=
  rec_type r = "tip"%string \/ rec_type r = "success"%string.

(** ** Reference notions used by the statements about the streak *)

Definition productive (d : day_row) : Prop := productive_day d = 1.

(** The leading rows whose flag is 1. *)
Fixpoint productive_prefix (days : list day_row) : list day_row :=
  match days with
  | [] => []
  | d :: rest => if productive_day d =? 1 then d :: productive_prefix rest else []
  end.

(** Most recent day first; ISO dates compare as text, as in the query's
    [ORDER BY date DESC]. *)
Definition later_or_same (a b : day_row) : Prop :=
  String.leb (day_date b) (day_date a) = true.

(** Stable insertion sort by day, descending. *)
Fixpoint insert_by_day_desc (x : day_row) (l : list day_row) : list day_row :=
  match l with
  | [] => [x]
  | y :: l' =>
      if String.leb (day_date y) (day_date x) then x :: y :: l'
      else y :: insert_by_day_desc x l'
  end.

Fixpoint sort_by_day_desc (days : list day_row) : list day_row :=
  match days with
  | [] => []
  | d :: rest => insert_by_day_desc d (sort_by_day_desc rest)
  end.

(** * The tables, the queries and the handlers around the two routines

    The functions of [app.py] read and write one SQLite file.  The file is
    modelled by a record of its six tables; every function takes the
    database it runs against and, when it writes, returns the new one.
    What a function reads from the clock ([date.today()],
    [datetime.now().isoformat()], [CURRENT_TIMESTAMP]) is an argument.
    Dates are proleptic ordinals; their ISO text is produced by
    [isoformat], a parameter of the queries, so that the statements hold
    for every rendering of dates; the later worked examples take
    [Py.isoformat], Python's own.  The SHA-256 hex digest is a parameter
    too.  Text columns
    compare byte by byte, as SQLite's default collation does.  Integer
    columns are unbounded: SQLite's 64-bit range, and the error its [SUM]
    raises on overflow, are not modelled. *)

Module App.

(** ** Tables and rows *)

(** A table whose key is [INTEGER PRIMARY KEY AUTOINCREMENT]: the rows in
    rowid order, and the largest key ever handed out (the table's entry in
    [sqlite_sequence]). *)
Record table (R : Type) : Type := mk_table {
  rows : list R;
  seq : Z
}.

Arguments mk_table {R} rows seq.
Arguments rows {R} t.
Arguments seq {R} t.

Record user : Type := mk_user {
  user_id : Z;
  user_username : string;
  user_password : string;
  user_email : string;
  user_created_date : string;
  user_timezone : string;
  user_theme : string
}.

Record task : Type := mk_task {
  task_id : Z;
  task_user_id : Z;
  task_title : string;
  task_description : string;
  task_category : string;
  task_priority : string;
  task_completed : Z;
  task_date : string;
  task_time_slot : string;
  task_estimated_duration : Z;
  task_actual_duration : option Z;
  task_created_at : string;
  task_completed_at : option string;
  task_tags : string;
  task_recurring : string;
  task_parent_task_id : option Z
}.

Record category : Type := mk_category {
  category_id : Z;
  category_user_id : Z;
  category_name : string;
  category_color : string;
  category_icon : string
}.

Record goal : Type := mk_goal {
  goal_id : Z;
  goal_user_id : Z;
  goal_title : string;
  goal_description : string;
  goal_target_date : string;
  goal_progress : Q;
  goal_completed : Z;
  goal_created_at : string
}.

Record habit : Type := mk_habit {
  habit_id : Z;
  habit_user_id : Z;
  habit_name : string;
  habit_description : string;
  habit_frequency : string;
  habit_streak : Z;
  habit_best_streak : Z;
  habit_created_at : string
}.

Record habit_log : Type := mk_habit_log {
  log_id : Z;
  log_habit_id : Z;
  log_date : string;
  log_completed : bool;
  log_notes : string
}.

Record database : Type := mk_database {
  users : table user;
  tasks : table task;
  categories : table category;
  goals : table goal;
  habits : table habit;
  habit_logs : table habit_log
}.

(** [init_db] on a fresh file: six empty tables. *)
Definition init_db : database :=
  {| users := mk_table [] 0;
     tasks := mk_table [] 0;
     categories := mk_table [] 0;
     goals := mk_table [] 0;
     habits := mk_table [] 0;
     habit_logs := mk_table [] 0 |}.

Definition set_users (db : database) (t : table user) : database :=
  {| users := t; tasks := tasks db; categories := categories db;
     goals := goals db; habits := habits db; habit_logs := habit_logs db |}.

Definition set_tasks (db : database) (t : table task) : database :=
  {| users := users db; tasks := t; categories := categories db;
     goals := goals db; habits := habits db; habit_logs := habit_logs db |}.

Definition set_categories (db : database) (t : table category) : database :=
  {| users := users db; tasks := tasks db; categories := t;
     goals := goals db; habits := habits db; habit_logs := habit_logs db |}.

Definition set_goals (db : database) (t : table goal) : database :=
  {| users := users db; tasks := tasks db; categories := categories db;
     goals := t; habits := habits db; habit_logs := habit_logs db |}.

Definition set_habits (db : database) (t : table habit) : database :=
  {| users := users db; tasks := tasks db; categories := categories db;
     goals := goals db; habits := t; habit_logs := habit_logs db |}.

Definition set_habit_logs (db : database) (t : table habit_log) : database :=
  {| users := users db; tasks := tasks db; categories := categories db;
     goals := goals db; habits := habits db; habit_logs := t |}.

(** ** SQL building blocks *)

(** [INSERT] without an explicit key: the new row gets the key after the
    largest one ever used. *)
Definition insert {R : Type} (t : table R) (make : Z -> R) : table R :=
  {| rows := rows t ++ [make (seq t + 1)]; seq := seq t + 1 |}.

(** [UPDATE ... WHERE]: every row the condition selects is rewritten. *)
Definition update {R : Type} (t : table R) (where_ : R -> bool) (set : R -> R)
  : table R :=
  {| rows := map (fun r => if where_ r then set r else r) (rows t);
     seq := seq t |}.

(** [DELETE ... WHERE]. *)
Definition delete {R : Type} (t : table R) (where_ : R -> bool) : table R :=
  {| rows := filter (fun r => negb (where_ r)) (rows t); seq := seq t |}.

(** [ORDER BY]: a stable insertion sort; rows that compare equal keep their
    rowid order. *)
Fixpoint insert_sorted {A : Type} (le : A -> A -> bool) (x : A) (l : list A)
  : list A :=
  match l with
  | [] => [x]
  | y :: l' => if le x y then x :: y :: l' else y :: insert_sorted le x l'
  end.

Definition order_by {A : Type} (le : A -> A -> bool) (l : list A) : list A :=
  fold_right (insert_sorted le) [] l.

(** The distinct values of a [GROUP BY] column. *)
Definition group_keys (keys : list string) : list string :=
  nodup string_dec keys.

(** [COUNT( * )]. *)
Definition count {A : Type} (l : list A) : Z := Z.of_nat (List.length l).

(** [AVG] over integers: absent on no row, else the sum over the count,
    a binary64 quotient (sums beyond [2 ^ 53], which SQLite accumulates
    with rounding, are not modelled). *)
Definition avg (xs : list Z) : option Q :=
  match xs with
  | [] => None
  | _ :: _ => Some (round_binary64 (inject_Z (sum xs) / inject_Z (count xs))%Q)
  end.

(** Truth value of an optional string argument: [None] and [""] are
    false. *)
Definition given (s : option string) : bool :=
  match s with
  | None => false
  | Some s => negb (s =? "")%string
  end.

(** ** Task functions *)

(** The filter one optional argument of [get_tasks] contributes: a clause
    [AND column = ?] when the argument is given (and, for category and
    priority, is not "All"), nothing otherwise. *)
Definition clause (active : bool) (arg : option string) (column : string) : bool :=
  match arg with
  | Some v => if active then (column =? v)%string else true
  | None => true
  end.

Definition not_all (arg : option string) : bool :=
  match arg with
  | Some v => negb (v =? "All")%string
  | None => true
  end.

(** [ORDER BY time_slot, priority DESC]. *)
Definition by_time_slot_priority_desc (a b : task) : bool :=
  match String.compare (task_time_slot a) (task_time_slot b) with
  | Lt => true
  | Gt => false
  | Eq => String.leb (task_priority b) (task_priority a)
  end.

Definition get_tasks (db : database) (user_id : Z)
    (selected_date category priority : option string) : list task :=
  let where_ (t : task) :=
    (task_user_id t =? user_id)
    && clause (given selected_date) selected_date (task_date t)
    && clause (given category && not_all category) category (task_category t)
    && clause (given priority && not_all priority) priority (task_priority t) in
  order_by by_time_slot_priority_desc (filter where_ (rows (tasks db))).

Definition add_task (db : database) (current_timestamp : string)
    (user_id : Z) (title description category priority date_ time_slot : string)
    (estimated_duration : Z) (tags recurring : string) : database :=
  set_tasks db
    (insert (tasks db) (fun id =>
       {| task_id := id;
          task_user_id := user_id;
          task_title := title;
          task_description := description;
          task_category := category;
          task_priority := priority;
          task_completed := 0;
          task_date := date_;
          task_time_slot := time_slot;
          task_estimated_duration := estimated_duration;
          task_actual_duration := None;
          task_created_at := current_timestamp;
          task_completed_at := None;
          task_tags := tags;
          task_recurring := recurring;
          task_parent_task_id := None |})).

Definition complete_task (db : database) (now : string)
    (task_id_ : Z) (actual_duration : option Z) : database :=
  set_tasks db
    (update (tasks db) (fun t => task_id t =? task_id_)
       (fun t =>
          {| task_id := task_id t;
             task_user_id := task_user_id t;
             task_title := task_title t;
             task_description := task_description t;
             task_category := task_category t;
             task_priority := task_priority t;
             task_completed := 1;
             task_date := task_date t;
             task_time_slot := task_time_slot t;
             task_estimated_duration := task_estimated_duration t;
             task_actual_duration := actual_duration;
             task_created_at := task_created_at t;
             task_completed_at := Some now;
             task_tags := task_tags t;
             task_recurring := task_recurring t;
             task_parent_task_id := task_parent_task_id t |})).

Definition delete_task (db : database) (task_id_ : Z) : database :=
  set_tasks db (delete (tasks db) (fun t => task_id t =? task_id_)).

Definition get_categories (db : database) (user_id : Z) : list category :=
  filter (fun c => category_user_id c =? user_id) (rows (categories db)).

Section Clock.

(** [date.isoformat()] on a proleptic ordinal. *)
Variable isoformat : Z -> string.

(** The rows of the user's tasks dated between two ISO dates, both
    included. *)
Definition tasks_between (db : database) (user_id : Z)
    (start_date end_date : string) : list task :=
  filter (fun t => (task_user_id t =? user_id)
                   && String.leb start_date (task_date t)
                   && String.leb (task_date t) end_date)
    (rows (tasks db)).

Definition stats_of_group (date_ : string) (group : list task) : stats_row :=
  {| stats_date := date_;
     total_tasks := count group;
     completed_tasks :=
       sum (map (fun t => if task_completed t =? 1 then 1 else 0) group);
     planned_time := sum (map task_estimated_duration group);
     actual_time :=
       sum (map (fun t => match task_actual_duration t with
                          | Some a => a
                          | None => 0
                          end) group) |}.

Definition get_productivity_stats (db : database) (today : Z)
    (user_id : Z) (days : Z) : list stats_row :=
  let end_date := today in
  let start_date := end_date - (days - 1) in
  let selected :=
    tasks_between db user_id (isoformat start_date) (isoformat end_date) in
  map (fun d =>
         stats_of_group d (filter (fun t => (task_date t =? d)%string) selected))
    (order_by String.leb (group_keys (map task_date selected))).

(** The query of [get_streak_data]: one row per date of the user's tasks,
    most recent first, at most thirty. *)
Definition streak_rows (db : database) (user_id : Z) : list day_row :=
  let selected := filter (fun t => task_user_id t =? user_id) (rows (tasks db)) in
  firstn 30
    (map (fun d =>
            let group := filter (fun t => (task_date t =? d)%string) selected in
            {| day_date := d;
               productive_day :=
                 if (count group >? 0)
                    && (sum (map (fun t => if task_completed t =? 1 then 1 else 0)
                               group) >? 0)
                 then 1 else 0 |})
       (order_by (fun a b => String.leb b a)
          (group_keys (map task_date selected)))).

Definition get_streak_data (db : database) (user_id : Z) : Z :=
  get_streak_data (streak_rows db user_id).

(** The three queries of [get_smart_recommendations]. *)
Definition overdue_tasks (db : database) (today : Z) (user_id : Z) : list task :=
  filter (fun t => (task_user_id t =? user_id)
                   && String.ltb (task_date t) (isoformat today)
                   && (task_completed t =? 0))
    (rows (tasks db)).

Definition timed_tasks (db : database) (user_id : Z) : list task :=
  filter (fun t => (task_user_id t =? user_id)
                   && (task_completed t =? 1)
                   && match task_actual_duration t with
                      | Some _ => true
                      | None => false
                      end)
    (rows (tasks db)).

Definition actual_durations (l : list task) : list Z :=
  flat_map (fun t => match task_actual_duration t with
                     | Some a => [a]
                     | None => []
                     end) l.

Definition get_smart_recommendations (db : database) (today : Z) (user_id : Z)
  : result (list recommendation) :=
  let overdue_count := count (overdue_tasks db today user_id) in
  let stats := get_productivity_stats db today user_id 7 in
  let time_data :=
    (avg (actual_durations (timed_tasks db user_id)),
     avg (map task_estimated_duration (timed_tasks db user_id))) in
  get_smart_recommendations overdue_count stats time_data.

End Clock.


(** ** The task manager page: what its form and buttons do

    [show_task_manager] and [show_tasks_list] contain the only calls of
    [add_task], [complete_task] and [delete_task]. *)








(** ** Goal functions *)

Definition add_goal (db : database) (current_timestamp : string)
    (user_id : Z) (title description target_date : string) : database :=
  set_goals db
    (insert (goals db) (fun id =>
       {| goal_id := id;
          goal_user_id := user_id;
          goal_title := title;
          goal_description := description;
          goal_target_date := target_date;
          goal_progress := 0%Q;
          goal_completed := 0;
          goal_created_at := current_timestamp |})).

Definition update_goal_progress (db : database) (goal_id_ : Z) (progress : Q)
  : database :=
  let completed := if Qle_bool 100 progress then 1 else 0 in
  set_goals db
    (update (goals db) (fun g => goal_id g =? goal_id_)
       (fun g =>
          {| goal_id := goal_id g;
             goal_user_id := goal_user_id g;
             goal_title := goal_title g;
             goal_description := goal_description g;
             goal_target_date := goal_target_date g;
             goal_progress := progress;
             goal_completed := completed;
             goal_created_at := goal_created_at g |})).

Definition delete_goal (db : database) (goal_id_ : Z) : database :=
  set_goals db (delete (goals db) (fun g => goal_id g =? goal_id_)).

(** ** Habit tracking functions *)

Definition add_habit (db : database) (current_timestamp : string)
    (user_id : Z) (name description frequency : string) : database :=
  set_habits db
    (insert (habits db) (fun id =>
       {| habit_id := id;
          habit_user_id := user_id;
          habit_name := name;
          habit_description := description;
          habit_frequency := frequency;
          habit_streak := 0;
          habit_best_streak := 0;
          habit_created_at := current_timestamp |})).

Definition get_habits (db : database) (user_id : Z) : list habit :=
  filter (fun h => habit_user_id h =? user_id) (rows (habits db)).

(** [WHERE habit_id = ? AND date = ?]. *)
Definition log_of (habit_id_ : Z) (date_str : string) (l : habit_log) : bool :=
  (log_habit_id l =? habit_id_) && (log_date l =? date_str)%string.

Definition set_streak (h : habit) (streak : Z) : habit :=
  {| habit_id := habit_id h;
     habit_user_id := habit_user_id h;
     habit_name := habit_name h;
     habit_description := habit_description h;
     habit_frequency := habit_frequency h;
     habit_streak := streak;
     habit_best_streak := habit_best_streak h;
     habit_created_at := habit_created_at h |}.

Definition set_best_streak (h : habit) (best_streak : Z) : habit :=
  {| habit_id := habit_id h;
     habit_user_id := habit_user_id h;
     habit_name := habit_name h;
     habit_description := habit_description h;
     habit_frequency := habit_frequency h;
     habit_streak := habit_streak h;
     habit_best_streak := best_streak;
     habit_created_at := habit_created_at h |}.

Definition log_habit (db : database) (habit_id_ : Z) (date_str : string)
    (completed : bool) (notes : string) : database :=
  (* Check if already logged for today *)
  let existing := find (log_of habit_id_ date_str) (rows (habit_logs db)) in
  let db :=
    match existing with
    | Some _ =>
        set_habit_logs db
          (update (habit_logs db) (log_of habit_id_ date_str)
             (fun l =>
                {| log_id := log_id l;
                   log_habit_id := log_habit_id l;
                   log_date := log_date l;
                   log_completed := completed;
                   log_notes := notes |}))
    | None =>
        set_habit_logs db
          (insert (habit_logs db) (fun id =>
             {| log_id := id;
                log_habit_id := habit_id_;
                log_date := date_str;
                log_completed := completed;
                log_notes := notes |}))
    end in
  (* Update streak *)
  if completed then
    let db :=
      set_habits db
        (update (habits db) (fun h => habit_id h =? habit_id_)
           (fun h => set_streak h (habit_streak h + 1))) in
    set_habits db
      (update (habits db) (fun h => habit_id h =? habit_id_)
         (fun h => set_best_streak h
                     (Z.max (habit_best_streak h) (habit_streak h))))
  else
    set_habits db
      (update (habits db) (fun h => habit_id h =? habit_id_)
         (fun h => set_streak h 0)).

Definition get_habit_log (db : database) (habit_id_ : Z) (date_str : string)
  : option habit_log :=
  find (log_of habit_id_ date_str) (rows (habit_logs db)).

Definition delete_habit (db : database) (habit_id_ : Z) : database :=
  let db :=
    set_habit_logs db
      (delete (habit_logs db) (fun l => log_habit_id l =? habit_id_)) in
  set_habits db (delete (habits db) (fun h => habit_id h =? habit_id_)).

(** ** The Kanban view: the three columns of [show_tasks_kanban] *)

Definition todo_tasks (tasks : list task) : list task :=
  filter (fun t => negb (negb (task_completed t =? 0))) tasks.

Definition in_progress_tasks (tasks : list task) : list task := [].

Definition completed_tasks (tasks : list task) : list task :=
  filter (fun t => negb (task_completed t =? 0)) tasks.

(** ** Accounts *)

(** [st.session_state]. *)
Record session : Type := mk_session {
  session_user_id : option Z;
  session_username : option string;
  session_page : string;
  session_theme : string
}.

Inductive error : Type :=
| TypeError.

Inductive outcome (A : Type) : Type :=
| Done (v : A)
| Raised (e : error).

Arguments Done {A} v.
Arguments Raised {A} e.

Section Accounts.

(** [date.isoformat()] and [hashlib.sha256(...).hexdigest()]. *)
Variable isoformat : Z -> string.
Variable sha256_hexdigest : string -> string.

Definition hash_password (password : string) : string :=
  sha256_hexdigest password.

Definition verify_password (password hashed : string) : bool :=
  (hash_password password =? hashed)%string.

Definition default_categories : list (string * string * string) :=
  [ ("Work", "#1f77b4", "💼");
    ("Personal", "#ff7f0e", "👤");
    ("Health", "#2ca02c", "🏥");
    ("Learning", "#d62728", "📚");
    ("Hobbies", "#9467bd", "🎨") ]%string.

(** The [INSERT] into [users] violates the [UNIQUE] constraint on
    [username], and raises [sqlite3.IntegrityError], when a row with that
    username exists; nothing has been written then. *)
Definition register_user (db : database) (today : Z)
    (username password email : string) : bool * database :=
  if existsb (fun u => (user_username u =? username)%string) (rows (users db))
  then (false, db)
  else
    let hashed_pw := hash_password password in
    let db :=
      set_users db
        (insert (users db) (fun id =>
           {| user_id := id;
              user_username := username;
              user_password := hashed_pw;
              user_email := email;
              user_created_date := isoformat today;
              user_timezone := "UTC";
              user_theme := "light" |})) in
    (* Create default categories *)
    let user_id := seq (users db) in
    let db :=
      fold_left
        (fun db '(name, color, icon) =>
           set_categories db
             (insert (categories db) (fun id =>
                {| category_id := id;
                   category_user_id := user_id;
                   category_name := name;
                   category_color := color;
                   category_icon := icon |})))
        default_categories db in
    (true, db).

Definition login_user (db : database) (username password : string)
  : option user :=
  let user :=
    find (fun u => (user_username u =? username)%string) (rows (users db)) in
  match user with
  | Some u => if verify_password password (user_password u) then Some u else None
  | None => None
  end.

(** The body of [if demo_button:]: [demo_user[0]] raises [TypeError] when
    [demo_user] is [None]. *)
Definition click_try_demo (db : database) (today : Z) (s : session)
  : outcome (database * session * string) :=
  (* Create demo user if not exists *)
  let demo_user := login_user db "demo" "demo123" in
  let '(db, demo_user) :=
    match demo_user with
    | Some _ => (db, demo_user)
    | None =>
        let db := snd (register_user db today "demo" "demo123" "demo@example.com") in
        (db, login_user db "demo" "demo123")
    end in
  match demo_user with
  | None => Raised TypeError
  | Some demo_user =>
      Done (db,
            {| session_user_id := Some (user_id demo_user);
               session_username := Some (user_username demo_user);
               session_page := "dashboard";
               session_theme := session_theme s |},
            "Welcome to demo mode!"%string)
  end.

End Accounts.

End App.

(** ** Names for the parts of the streak query *)

(** The user's tasks. *)
Definition user_tasks (db : App.database) (user_id : Z) : list App.task :=
  filter (fun t => App.task_user_id t =? user_id) (App.rows (App.tasks db)).

(** The dates of the user's tasks, each once, most recent first. *)
Definition streak_dates (db : App.database) (user_id : Z) : list string :=
  App.order_by (fun a b => String.leb b a)
    (App.group_keys (map App.task_date (user_tasks db user_id))).

(** The flag the streak query computes for one date. *)
Definition streak_flag (selected : list App.task) (d : string) : Z :=
  let group := filter (fun t => (App.task_date t =? d)%string) selected in
  if (App.count group >? 0)
     && (sum (map (fun t => if App.task_completed t =? 1 then 1 else 0) group)
         >? 0)
  then 1 else 0.

(** The per-day records of the streak query before [ORDER BY] and [LIMIT]
    apply: one record per date of the user's tasks, in the order in which
    the dates first occur in the table. *)
Definition daily_activity (db : App.database) (user_id : Z) : list day_row :=
  map (fun d => {| day_date := d;
                   productive_day := streak_flag (user_tasks db user_id) d |})
    (App.group_keys (map App.task_date (user_tasks db user_id))).

(** The columns of a task the streak query reads. *)
Definition activity (t : App.task) : Z * string * Z :=
  (App.task_user_id t, App.task_date t, App.task_completed t).


(** ** Properties of the tasks table *)

(** Keys are distinct and none exceeds the largest key handed out. *)
Definition tasks_well_keyed (db : App.database) : Prop :=
  NoDup (map App.task_id (App.rows (App.tasks db)))
  /\ Forall (fun t => App.task_id t <= App.seq (App.tasks db))
       (App.rows (App.tasks db)).


(** ** Properties of the other tables *)

(** A habit's streak is not negative and does not exceed its best streak. *)
Definition habits_consistent (db : App.database) : Prop :=
  Forall (fun h => 0 <= App.habit_streak h <= App.habit_best_streak h)
    (App.rows (App.habits db)).

(** At most one log row per habit and date. *)
Definition logs_one_per_day (db : App.database) : Prop :=
  NoDup (map (fun l => (App.log_habit_id l, App.log_date l))
           (App.rows (App.habit_logs db))).

(** No two accounts share a username. *)
Definition usernames_unique (db : App.database) : Prop :=
  NoDup (map App.user_username (App.rows (App.users db))).

(** Categories belong to accounts that have been created. *)
Definition categories_of_created_users (db : App.database) : Prop :=
  Forall (fun c => App.category_user_id c <= App.seq (App.users db))
    (App.rows (App.categories db)).

(** A goal's completed flag is 0 or 1, and is 1 exactly when its progress
    is at least 100. *)
Definition goals_consistent (db : App.database) : Prop :=
  Forall (fun g => (App.goal_completed g = 1 /\ (100 <= App.goal_progress g)%Q)
                   \/ (App.goal_completed g = 0 /\ (App.goal_progress g < 100)%Q))
    (App.rows (App.goals db)).

(** ** Sample databases, built by the operations themselves *)

(** Two open tasks of user 1, under the keys 1 and 2. *)
Definition two_tasks : App.database :=
  App.add_task
    (App.add_task App.init_db "2024-03-08 18:00:00" 1 "Call the bank" ""
       "Personal" "high" "2024-03-09" "09:00-10:00" 30 "" "none")
    "2024-03-08 18:05:00" 1 "Read chapter 3" "" "Learning" "medium"
    "2024-03-09" "10:00-11:00" 45 "" "none".


(** Five tasks of user 1 on 2024-03-09, estimated at 15, 15, 15, 15 and 16
    minutes and completed after 22, 23, 23, 23 and 23 minutes: the averages
    are the doubles nearest to 15.2 and 22.8. *)
Definition underestimated_tasks : App.database :=
  fold_left
    (fun db '(key, estimated, actual) =>
       App.complete_task
         (App.add_task db "2024-03-09 08:00:00" 1 "Exercise" "" "Learning"
            "medium" "2024-03-09" "09:00-10:00" estimated "" "none")
         "2024-03-09T18:00:00" key (Some actual))
    [(1, 15, 22); (2, 15, 23); (3, 15, 23); (4, 15, 23); (5, 16, 23)]
    App.init_db.

(** User 1 has two tasks dated 2024-02-17, one open and one completed after
    90 minutes for an estimate of 30; user 2 has a task on 2024-03-09. *)
Definition stale_tasks : App.database :=
  App.add_task
    (App.complete_task
       (App.add_task
          (App.add_task App.init_db "2024-02-10 09:00:00" 1 "File the tax return"
             "" "Personal" "high" "2024-02-17" "09:00-10:00" 60 "" "none")
          "2024-02-10 09:05:00" 1 "Call the bank" "" "Personal" "medium"
          "2024-02-17" "10:00-11:00" 30 "" "none")
       "2024-02-17T11:30:00" 2 (Some 90))
    "2024-03-09 08:00:00" 2 "Read chapter 3" "" "Learning" "medium"
    "2024-03-09" "09:00-10:00" 45 "" "none".

(** Three days of user 1: nothing completed on 2024-03-07, one task
    completed on each of the two days after.  Entered oldest day first. *)
Definition three_days : App.database :=
  App.complete_task
    (App.complete_task
       (App.add_task
          (App.add_task
             (App.add_task App.init_db "2024-03-07 08:00:00" 1 "Read chapter 1"
                "" "Learning" "medium" "2024-03-07" "09:00-10:00" 45 "" "none")
             "2024-03-08 08:00:00" 1 "Read chapter 2" "" "Learning" "medium"
             "2024-03-08" "09:00-10:00" 45 "" "none")
          "2024-03-09 08:00:00" 1 "Read chapter 3" "" "Learning" "medium"
          "2024-03-09" "09:00-10:00" 45 "" "none")
       "2024-03-08T10:00:00" 2 (Some 45))
    "2024-03-09T10:00:00" 3 (Some 45).

(** The same three days, entered most recent day first. *)
Definition three_days_latest_first : App.database :=
  App.complete_task
    (App.complete_task
       (App.add_task
          (App.add_task
             (App.add_task App.init_db "2024-03-06 08:00:00" 1 "Read chapter 3"
                "" "Learning" "medium" "2024-03-09" "09:00-10:00" 45 "" "none")
             "2024-03-06 08:01:00" 1 "Read chapter 2" "" "Learning" "medium"
             "2024-03-08" "09:00-10:00" 45 "" "none")
          "2024-03-06 08:02:00" 1 "Read chapter 1" "" "Learning" "medium"
          "2024-03-07" "09:00-10:00" 45 "" "none")
       "2024-03-08T10:00:00" 2 (Some 45))
    "2024-03-09T10:00:00" 1 (Some 45).
(** ** The streak loop *)

Section Streak.

Lemma streak_loop_shift (days : list day_row) (n : Z) :
  streak_loop days n = n + streak_loop days 0.
Proof.
  revert n.
  induction days as [|d rest IH]; intros n; simpl.
  - lia.
  - destruct (productive_day d =? 1); [|lia].
    rewrite (IH (n + 1)), (IH 1). lia.
Qed.

Lemma get_streak_data_cons (d : day_row) (rest : list day_row) :
  get_streak_data (d :: rest) =
  if productive_day d =? 1 then 1 + get_streak_data rest else 0.
Proof.
  unfold get_streak_data. simpl.
  destruct (productive_day d =? 1); [|reflexivity].
  apply streak_loop_shift.
Qed.

Lemma get_streak_data_prefix (days : list day_row) :
  get_streak_data days = Z.of_nat (List.length (productive_prefix days)).
Proof.
  induction days as [|d rest IH].
  - reflexivity.
  - rewrite get_streak_data_cons. cbn [productive_prefix].
    destruct (productive_day d =? 1); [|reflexivity].
    cbn [List.length]. rewrite IH. lia.
Qed.

Lemma productive_prefix_split (days : list day_row) :
  exists rest, days = productive_prefix days ++ rest.
Proof.
  induction days as [|d rest' [rest IH]]; simpl.
  - now exists [].
  - destruct (productive_day d =? 1).
    + exists rest. simpl. now f_equal.
    + now exists (d :: rest').
Qed.

Lemma productive_prefix_Forall (days : list day_row) :
  Forall productive (productive_prefix days).
Proof.
  induction days as [|d rest IH]; simpl; [constructor|].
  destruct (productive_day d =? 1) eqn:E; constructor; [|exact IH].
  now apply Z.eqb_eq.
Qed.

Lemma productive_prefix_app (pre rest : list day_row) :
  Forall productive pre ->
  productive_prefix (pre ++ rest) = pre ++ productive_prefix rest.
Proof.
  induction 1 as [|d pre Hd _ IH]; simpl; [reflexivity|].
  unfold productive in Hd. rewrite Hd. simpl. now f_equal.
Qed.

Lemma productive_prefix_stop (d : day_row) (rest : list day_row) :
  ~ productive d -> productive_prefix (d :: rest) = [].
Proof.
  unfold productive. intros Hd. simpl.
  destruct (productive_day d =? 1) eqn:E; [|reflexivity].
  apply Z.eqb_eq in E. contradiction.
Qed.

End Streak.

(** ** Sorting by day, most recent first *)

Section SortByDay.

Lemma insert_by_day_desc_front (x : day_row) (l : list day_row) :
  HdRel later_or_same x l -> insert_by_day_desc x l = x :: l.
Proof.
  intros H. inversion H as [|y l' Hxy]; subst; simpl; [reflexivity|].
  unfold later_or_same in Hxy. now rewrite Hxy.
Qed.

Lemma sort_by_day_desc_fixes_sorted (days : list day_row) :
  Sorted later_or_same days -> sort_by_day_desc days = days.
Proof.
  induction 1 as [|d rest _ IH Hd]; simpl; [reflexivity|].
  rewrite IH. now apply insert_by_day_desc_front.
Qed.

Lemma insert_by_day_desc_perm (x : day_row) (l : list day_row) :
  Permutation (x :: l) (insert_by_day_desc x l).
Proof.
  induction l as [|y l IH]; simpl; [apply Permutation_refl|].
  destruct (String.leb (day_date y) (day_date x)); [apply Permutation_refl|].
  eapply perm_trans; [apply perm_swap|]. now apply perm_skip.
Qed.

Lemma sort_by_day_desc_perm (days : list day_row) :
  Permutation days (sort_by_day_desc days).
Proof.
  induction days as [|d rest IH]; simpl; [constructor|].
  eapply perm_trans; [apply perm_skip, IH|]. apply insert_by_day_desc_perm.
Qed.

Lemma insert_by_day_desc_sorted (x : day_row) (l : list day_row) :
  Sorted later_or_same l -> Sorted later_or_same (insert_by_day_desc x l).
Proof.
  induction 1 as [|y l Hl IH Hy]; simpl.
  - repeat constructor.
  - destruct (String.leb (day_date y) (day_date x)) eqn:E.
    + constructor; [now constructor|]. now constructor.
    + assert (Hyx : later_or_same y x).
      { unfold later_or_same.
        destruct (String.leb_total (day_date y) (day_date x)) as [H|H];
          [congruence|exact H]. }
      constructor; [exact IH|].
      destruct l as [|z l]; simpl.
      * now constructor.
      * destruct (String.leb (day_date z) (day_date x));
          constructor; [exact Hyx|].
        now inversion Hy.
Qed.

Lemma sort_by_day_desc_sorted (days : list day_row) :
  Sorted later_or_same (sort_by_day_desc days).
Proof.
  induction days as [|d rest IH]; simpl; [constructor|].
  now apply insert_by_day_desc_sorted.
Qed.

End SortByDay.

(** ** Statements about [get_streak_data] *)

(** C2.  On rows ordered most recent first, the streak loop returns the
    length of the longest prefix of the rows in which every row is
    productive (flag equal to 1): [productive_prefix days] is a prefix of
    [days], all of its rows are productive, no all-productive prefix is
    longer, and the loop returns its length.  In particular the empty
    sequence gives 0, an all-productive sequence gives its length, and [k]
    productive rows followed by a non-productive one give [k]. *)
Theorem get_streak_data_longest_productive_prefix :
  (forall days : list day_row,
      get_streak_data days = Z.of_nat (List.length (productive_prefix days))
      /\ (exists rest, days = productive_prefix days ++ rest)
      /\ Forall productive (productive_prefix days)
      /\ (forall pre rest, days = pre ++ rest -> Forall productive pre ->
            (List.length pre <= List.length (productive_prefix days))%nat))
  /\ get_streak_data [] = 0
  /\ (forall days : list day_row,
        Forall productive days ->
        get_streak_data days = Z.of_nat (List.length days))
  /\ (forall (pre : list day_row) (d : day_row) (rest : list day_row),
        Forall productive pre -> ~ productive d ->
        get_streak_data (pre ++ d :: rest) = Z.of_nat (List.length pre)).
Proof.
  split; [|split; [reflexivity|split]].
  - intros days. split; [apply get_streak_data_prefix|].
    split; [apply productive_prefix_split|].
    split; [apply productive_prefix_Forall|].
    intros pre rest -> Hpre.
    rewrite (productive_prefix_app pre rest Hpre), length_app. lia.
  - intros days Hall. rewrite get_streak_data_prefix.
    rewrite <- (app_nil_r days) at 1.
    now rewrite (productive_prefix_app days [] Hall), app_nil_r.
  - intros pre d rest Hpre Hd. rewrite get_streak_data_prefix.
    rewrite (productive_prefix_app pre (d :: rest) Hpre).
    now rewrite (productive_prefix_stop d rest Hd), app_nil_r.
Qed.

Lemma get_streak_data_longest_productive_prefix_witness :
  get_streak_data
    [mk_day_row "2024-03-09" 1; mk_day_row "2024-03-08" 1;
     mk_day_row "2024-03-06" 0; mk_day_row "2024-03-05" 1] = 2.
Proof.
  destruct get_streak_data_longest_productive_prefix as (_ & _ & _ & Hk).
  apply (Hk [mk_day_row "2024-03-09" 1; mk_day_row "2024-03-08" 1]
            (mk_day_row "2024-03-06" 0) [mk_day_row "2024-03-05" 1]).
  - repeat constructor.
  - unfold productive. simpl. lia.
Defined.

(** ** Comparisons and truth values of numbers *)

Section Numbers.

Lemma lt_iff (x y : Q) : lt x y = true <-> (x < y)%Q.
Proof.
  unfold lt. rewrite Qlt_alt. destruct (x ?= y)%Q; intuition congruence.
Qed.

Lemma lt_false_iff (x y : Q) : lt x y = false <-> (y <= x)%Q.
Proof.
  split.
  - intros H. apply Qnot_lt_le. intros Hlt. apply lt_iff in Hlt. congruence.
  - intros Hle. destruct (lt x y) eqn:E; [|reflexivity].
    apply lt_iff in E. exfalso. exact (Qlt_not_le _ _ E Hle).
Qed.

Lemma truthy_iff (x : Q) : truthy x = true <-> ~ (x == 0)%Q.
Proof.
  unfold truthy. rewrite negb_true_iff. split.
  - intros H Hx. apply Qeq_bool_iff in Hx. congruence.
  - intros H. destruct (Qeq_bool x 0) eqn:E; [|reflexivity].
    apply Qeq_bool_iff in E. contradiction.
Qed.

Lemma truediv_nonzero (a b : Z) :
  b <> 0 -> truediv a b = Returns (inject_Z a / inject_Z b)%Q.
Proof.
  intros Hb. unfold truediv. destruct (b =? 0) eqn:E; [|reflexivity].
  apply Z.eqb_eq in E. contradiction.
Qed.

Lemma time_condition_iff (time_data : option Q * option Q) :
  time_condition time_data = true <->
  exists actual estimated,
    time_data = (Some actual, Some estimated)
    /\ ~ (actual == 0)%Q /\ ~ (estimated == 0)%Q
    /\ (round_binary64 (estimated * (15 # 10)) < actual)%Q.
Proof.
  destruct time_data as [[actual|] [estimated|]]; unfold time_condition;
    cbn [fst snd].
  - rewrite !andb_true_iff, !truthy_iff, lt_iff. split.
    + intros (Ha & He & Hlt). now exists actual, estimated.
    + intros (a & e & Heq & Ha & He & Hlt). now inversion Heq; subst.
  - rewrite andb_false_r. split; [discriminate|].
    intros (a & e & Heq & _). discriminate.
  - split; [discriminate|]. intros (a & e & Heq & _). discriminate.
  - split; [discriminate|]. intros (a & e & Heq & _). discriminate.
Qed.

End Numbers.

(** ** The function is the concatenation of its three rules *)

Section Rules.

Lemma get_smart_recommendations_rules
    (overdue_count : Z) (stats : list stats_row)
    (time_data : option Q * option Q) :
  get_smart_recommendations overdue_count stats time_data =
  Returns (overdue_rule overdue_count ++ completion_rule stats
             ++ time_rule time_data).
Proof.
  unfold get_smart_recommendations, overdue_rule, completion_rule, time_rule,
    avg_completion_of.
  destruct stats as [|r stats].
  - cbn [bind app]. destruct (overdue_count >? 0), (time_condition time_data);
      reflexivity.
  - set (total := sum (map total_tasks (r :: stats))).
    set (completed := sum (map completed_tasks (r :: stats))).
    destruct (total >? 0) eqn:Epos.
    + rewrite truediv_nonzero by (apply Z.gtb_lt in Epos; lia).
      cbn [bind].
      destruct (lt (inject_Z completed / inject_Z total) (6 # 10));
        [|destruct (lt (8 # 10) (inject_Z completed / inject_Z total))];
        cbn [bind];
        destruct (overdue_count >? 0), (time_condition time_data);
        reflexivity.
    + cbn [bind].
      destruct (lt 0 (6 # 10)); [|destruct (lt (8 # 10) 0)];
        cbn [bind];
        destruct (overdue_count >? 0), (time_condition time_data);
        reflexivity.
Qed.

Lemma overdue_rule_cases (overdue_count : Z) :
  (overdue_count <= 0 /\ overdue_rule overdue_count = [])
  \/ (overdue_count > 0
      /\ overdue_rule overdue_count = [overdue_alert overdue_count]).
Proof.
  unfold overdue_rule. destruct (overdue_count >? 0) eqn:E.
  - right. apply Z.gtb_lt in E. split; [lia|reflexivity].
  - left. split; [|reflexivity].
    destruct (Z.gtb_spec overdue_count 0); [discriminate|lia].
Qed.

Lemma completion_rule_cases (stats : list stats_row) :
  completion_rule stats = []
  \/ completion_rule stats = [productivity_boost (avg_completion_of stats)]
  \/ completion_rule stats = [great_performance (avg_completion_of stats)].
Proof.
  unfold completion_rule. destruct stats as [|r stats]; [now left|].
  cbv zeta.
  destruct (lt (avg_completion_of (r :: stats)) (6 # 10)); [now right; left|].
  destruct (lt (8 # 10) (avg_completion_of (r :: stats)));
    [now right; right|now left].
Qed.

Lemma time_rule_cases (time_data : option Q * option Q) :
  (time_condition time_data = false /\ time_rule time_data = [])
  \/ (time_condition time_data = true /\ time_rule time_data = [time_estimation]).
Proof.
  unfold time_rule. destruct (time_condition time_data); [right|left]; now split.
Qed.

(** The completion-rate rule in terms of the rate. *)
Lemma completion_rule_nil_iff (stats : list stats_row) :
  completion_rule stats = [] <->
  stats = []
  \/ ((6 # 10) <= avg_completion_of stats /\ avg_completion_of stats <= (8 # 10))%Q.
Proof.
  unfold completion_rule. destruct stats as [|r stats].
  - split; [now left|reflexivity].
  - cbv zeta. set (avg := avg_completion_of (r :: stats)).
    destruct (lt avg (6 # 10)) eqn:Elow.
    + split; [discriminate|]. intros [H|[Hlo _]]; [discriminate|].
      apply lt_false_iff in Hlo. congruence.
    + destruct (lt (8 # 10) avg) eqn:Ehigh.
      * split; [discriminate|]. intros [H|[_ Hhi]]; [discriminate|].
        apply lt_false_iff in Hhi. congruence.
      * split; [|reflexivity]. intros _. right.
        split; now apply lt_false_iff.
Qed.

End Rules.

(** ** What each rule can contribute *)

Section RuleTypes.

Lemma overdue_rule_types (overdue_count : Z) :
  Forall (fun r => rec_type r = "warning"%string) (overdue_rule overdue_count).
Proof.
  destruct (overdue_rule_cases overdue_count) as [[_ ->]|[_ ->]];
    repeat constructor.
Qed.

Lemma completion_rule_types (stats : list stats_row) :
  Forall completion_rate_rec (completion_rule stats).
Proof.
  destruct (completion_rule_cases stats) as [->|[->| ->]];
    [constructor| |]; (constructor; [|constructor]);
    unfold completion_rate_rec; simpl; auto.
Qed.

Lemma time_rule_types (time_data : option Q * option Q) :
  Forall (fun r => rec_type r = "insight"%string) (time_rule time_data).
Proof.
  destruct (time_rule_cases time_data) as [[_ ->]|[_ ->]]; repeat constructor.
Qed.

Lemma rule_length_le_1 (l : list recommendation) (a : recommendation) :
  l = [] \/ l = [a] -> (List.length l <= 1)%nat.
Proof. intros [-> | ->]; simpl; lia. Qed.

Lemma overdue_rule_length (overdue_count : Z) :
  (List.length (overdue_rule overdue_count) <= 1)%nat.
Proof.
  destruct (overdue_rule_cases overdue_count) as [[_ ->]|[_ ->]]; simpl; lia.
Qed.

Lemma completion_rule_length (stats : list stats_row) :
  (List.length (completion_rule stats) <= 1)%nat.
Proof.
  destruct (completion_rule_cases stats) as [->|[->| ->]]; simpl; lia.
Qed.

Lemma time_rule_length (time_data : option Q * option Q) :
  (List.length (time_rule time_data) <= 1)%nat.
Proof.
  destruct (time_rule_cases time_data) as [[_ ->]|[_ ->]]; simpl; lia.
Qed.

(** The output holds a completion-rate dict exactly when the
    completion-rate rule contributed one. *)
Lemma no_completion_rate_rec_iff
    (overdue_count : Z) (stats : list stats_row)
    (time_data : option Q * option Q) :
  Forall (fun r => ~ completion_rate_rec r)
    (overdue_rule overdue_count ++ completion_rule stats ++ time_rule time_data)
  <-> completion_rule stats = [].
Proof.
  rewrite !Forall_app. split.
  - intros (_ & Hc & _).
    pose proof (completion_rule_types stats) as Ht.
    destruct (completion_rule stats) as [|r l]; [reflexivity|].
    inversion Hc; inversion Ht; subst. contradiction.
  - intros ->. split; [|split; [constructor|]].
    + eapply Forall_impl; [|apply overdue_rule_types].
      intros r Hr [H|H]; rewrite Hr in H; discriminate.
    + eapply Forall_impl; [|apply time_rule_types].
      intros r Hr [H|H]; rewrite Hr in H; discriminate.
Qed.

(** The output holds an insight dict exactly when the time rule fired. *)
Lemma no_insight_rec_iff
    (overdue_count : Z) (stats : list stats_row)
    (time_data : option Q * option Q) :
  Forall (fun r => rec_type r <> "insight"%string)
    (overdue_rule overdue_count ++ completion_rule stats ++ time_rule time_data)
  <-> time_condition time_data = false.
Proof.
  rewrite !Forall_app. split.
  - intros (_ & _ & Ht).
    destruct (time_rule_cases time_data) as [[E _]|[_ E]]; [exact E|].
    rewrite E in Ht. inversion Ht; subst. simpl in *. congruence.
  - intros E. split; [|split].
    + eapply Forall_impl; [|apply overdue_rule_types].
      intros r Hr H; rewrite Hr in H; discriminate.
    + eapply Forall_impl; [|apply completion_rule_types].
      intros r [Hr|Hr] H; rewrite Hr in H; discriminate.
    + destruct (time_rule_cases time_data) as [[_ ->]|[E' _]];
        [constructor|congruence].
Qed.

Lemma avg_completion_of_no_tasks (stats : list stats_row) :
  sum (map total_tasks stats) <= 0 -> avg_completion_of stats = 0%Q.
Proof.
  intros H. unfold avg_completion_of.
  destruct (Z.gtb_spec (sum (map total_tasks stats)) 0); [lia|reflexivity].
Qed.

Lemma avg_completion_of_tasks (stats : list stats_row) :
  0 < sum (map total_tasks stats) ->
  avg_completion_of stats =
  (inject_Z (sum (map completed_tasks stats))
   / inject_Z (sum (map total_tasks stats)))%Q.
Proof.
  intros H. unfold avg_completion_of.
  destruct (Z.gtb_spec (sum (map total_tasks stats)) 0); [reflexivity|lia].
Qed.

End RuleTypes.

(** ** Statements about [get_smart_recommendations] *)

Section Consequences.

Lemma productive_prefix_length (days : list day_row) :
  (List.length (productive_prefix days) <= List.length days)%nat.
Proof.
  destruct (productive_prefix_split days) as [rest Hsplit].
  rewrite Hsplit at 2. rewrite length_app. lia.
Qed.


Lemma completion_rule_fires_iff (stats : list stats_row) :
  completion_rule stats <> [] <->
  stats <> []
  /\ (avg_completion_of stats < (6 # 10) \/ (8 # 10) < avg_completion_of stats)%Q.
Proof.
  unfold completion_rule. destruct stats as [|r stats].
  - split; [congruence|]. intros [H _]. congruence.
  - cbv zeta. set (avg := avg_completion_of (r :: stats)).
    destruct (lt avg (6 # 10)) eqn:Elow.
    + apply lt_iff in Elow. split; [|discriminate].
      intros _. split; [discriminate|now left].
    + destruct (lt (8 # 10) avg) eqn:Ehigh.
      * apply lt_iff in Ehigh. split; [|discriminate].
        intros _. split; [discriminate|now right].
      * apply lt_false_iff in Elow. apply lt_false_iff in Ehigh.
        split; [congruence|].
        intros [_ [H|H]]; exfalso; eapply Qlt_not_le; eauto.
Qed.

(** A completion-rate dict in the output comes from the completion-rate
    rule. *)
Lemma completion_rate_rec_origin
    (overdue_count : Z) (stats : list stats_row)
    (time_data : option Q * option Q) (r : recommendation) :
  In r (overdue_rule overdue_count ++ completion_rule stats
          ++ time_rule time_data) ->
  completion_rate_rec r ->
  In r (completion_rule stats).
Proof.
  rewrite !in_app_iff. intros [Hin|[Hin|Hin]] Hr; [|exact Hin|]; exfalso.
  - pose proof (overdue_rule_types overdue_count) as Ht.
    rewrite Forall_forall in Ht. specialize (Ht r Hin).
    destruct Hr as [Hr|Hr]; rewrite Ht in Hr; discriminate.
  - pose proof (time_rule_types time_data) as Ht.
    rewrite Forall_forall in Ht. specialize (Ht r Hin).
    destruct Hr as [Hr|Hr]; rewrite Ht in Hr; discriminate.
Qed.

End Consequences.

(** The second worked example: no overdue task, nine of ten tasks
    completed, averages 100 and 50 minutes. *)
Example get_smart_recommendations_success_and_insight :
  get_smart_recommendations 0
    [mk_stats_row "2024-03-08" 4 4 240 400; mk_stats_row "2024-03-09" 6 5 360 600]
    (Some 100%Q, Some 50%Q)
  = Returns
      [ {| rec_type := "success";
           rec_title := "🎉 Great Performance!";
           rec_message :=
             "Excellent completion rate of 90.0%! Keep up the great work!";
           rec_action := "Maintain momentum" |};
        time_estimation ].
Proof. reflexivity. Qed.

(** C5 as stated fails on the title.  On the claim's own example (five
    overdue tasks, three of ten tasks completed, no duration averages) the
    two dicts are the overdue warning and the tip, but the warning's title
    carries a leading warning sign and is not the bare text. *)
Lemma overdue_alert_title_counterexample :
  5 > 0
  /\ get_smart_recommendations 5
       [mk_stats_row "2024-03-08" 4 1 120 90; mk_stats_row "2024-03-09" 6 2 180 200]
       (None, None)
     = Returns [overdue_alert 5; productivity_boost (3 # 10)]
  /\ rec_title (overdue_alert 5) <> "Overdue Tasks Alert"%string
  /\ rec_title (productivity_boost (3 # 10)) <> "Overdue Tasks Alert"%string.
Proof. repeat split; try reflexivity; discriminate. Qed.

(** C5, amended.  Whenever the overdue count is positive, the first dict of
    the output is the overdue warning: type "warning", title
    "⚠️ Overdue Tasks Alert" (the text preceded by a warning sign), a
    message that spells out the overdue count, and action
    "Review overdue tasks".  With five overdue tasks, statistics summing to
    ten tasks of which three completed, and no duration averages, the output
    is exactly that warning, mentioning 5, followed by the tip, mentioning
    30.0%. *)
Theorem overdue_alert_emitted :
  (forall overdue_count stats time_data,
      overdue_count > 0 ->
      exists rest,
        get_smart_recommendations overdue_count stats time_data
        = Returns
            ({| rec_type := "warning";
                rec_title := "⚠️ Overdue Tasks Alert";
                rec_message :=
                  "You have " ++ str overdue_count
                  ++ " overdue tasks. Consider rescheduling or breaking them into smaller chunks.";
                rec_action := "Review overdue tasks" |} :: rest))
  /\ (forall stats,
        sum (map total_tasks stats) = 10 ->
        sum (map completed_tasks stats) = 3 ->
        get_smart_recommendations 5 stats (None, None)
        = Returns
            [ {| rec_type := "warning";
                 rec_title := "⚠️ Overdue Tasks Alert";
                 rec_message :=
                   "You have 5 overdue tasks. Consider rescheduling or breaking them into smaller chunks.";
                 rec_action := "Review overdue tasks" |};
              {| rec_type := "tip";
                 rec_title := "💡 Productivity Boost";
                 rec_message :=
                   "Your completion rate is 30.0%. Try breaking tasks into smaller, manageable chunks.";
                 rec_action := "Optimize task planning" |} ]).
Proof.
  split.
  - intros overdue_count stats time_data Hpos.
    rewrite get_smart_recommendations_rules.
    destruct (overdue_rule_cases overdue_count) as [[Hle _]|[_ ->]]; [lia|].
    eexists. reflexivity.
  - intros stats Htotal Hcompleted.
    rewrite get_smart_recommendations_rules.
    assert (Havg : avg_completion_of stats = (inject_Z 3 / inject_Z 10)%Q).
    { rewrite avg_completion_of_tasks by lia. now rewrite Htotal, Hcompleted. }
    unfold completion_rule. destruct stats as [|r stats]; [discriminate|].
    cbv zeta. rewrite Havg. reflexivity.
Qed.

Lemma overdue_alert_emitted_witness :
  exists rest,
    get_smart_recommendations 2 [mk_stats_row "2024-03-09" 4 3 60 45]
      (Some 40%Q, Some 30%Q)
    = Returns
        ({| rec_type := "warning";
            rec_title := "⚠️ Overdue Tasks Alert";
            rec_message :=
              "You have " ++ str 2
              ++ " overdue tasks. Consider rescheduling or breaking them into smaller chunks.";
            rec_action := "Review overdue tasks" |} :: rest).
Proof.
  destruct overdue_alert_emitted as [Hfirst _].
  apply (Hfirst 2 [mk_stats_row "2024-03-09" 4 3 60 45] (Some 40%Q, Some 30%Q)).
  reflexivity.
Defined.

(** C6.  The output is the overdue rule's contribution, then the
    completion-rate rule's, then the time rule's.  Each contributes at most
    one dict: a warning exactly when the overdue count is positive; a tip or
    a success exactly when there are statistics rows and the rate is below
    0.6 or above 0.8; an insight exactly when the time condition holds. *)
Theorem get_smart_recommendations_order
    (overdue_count : Z) (stats : list stats_row)
    (time_data : option Q * option Q) :
  exists overdue_part completion_part time_part,
    get_smart_recommendations overdue_count stats time_data
    = Returns (overdue_part ++ completion_part ++ time_part)
    /\ ((List.length overdue_part <= 1)%nat
        /\ Forall (fun r => rec_type r = "warning"%string) overdue_part
        /\ (overdue_part <> [] <-> overdue_count > 0))
    /\ ((List.length completion_part <= 1)%nat
        /\ Forall completion_rate_rec completion_part
        /\ (completion_part <> [] <->
            stats <> []
            /\ (avg_completion_of stats < (6 # 10)
                \/ (8 # 10) < avg_completion_of stats)%Q))
    /\ ((List.length time_part <= 1)%nat
        /\ Forall (fun r => rec_type r = "insight"%string) time_part
        /\ (time_part <> [] <-> time_condition time_data = true)).
Proof.
  exists (overdue_rule overdue_count), (completion_rule stats), (time_rule time_data).
  split; [apply get_smart_recommendations_rules|].
  split; [|split].
  - split; [apply overdue_rule_length|]. split; [apply overdue_rule_types|].
    destruct (overdue_rule_cases overdue_count) as [[Hle ->]|[Hpos ->]].
    + split; [congruence|lia].
    + split; [intros _; exact Hpos|discriminate].
  - split; [apply completion_rule_length|].
    split; [apply completion_rule_types|apply completion_rule_fires_iff].
  - split; [apply time_rule_length|]. split; [apply time_rule_types|].
    destruct (time_rule_cases time_data) as [[E ->]|[E ->]]; rewrite E.
    + split; [congruence|discriminate].
    + split; [reflexivity|discriminate].
Qed.

(** C7.  When the statistics rows hold at least one task and the completion
    rate lies in the closed interval from 0.6 to 0.8, the output holds no
    completion-rate recommendation: the tip needs a rate strictly below
    0.6, the success a rate strictly above 0.8. *)
Theorem completion_rate_between_thresholds
    (overdue_count : Z) (stats : list stats_row)
    (time_data : option Q * option Q) :
  0 < sum (map total_tasks stats) ->
  ((6 # 10) <= inject_Z (sum (map completed_tasks stats))
               / inject_Z (sum (map total_tasks stats)))%Q ->
  (inject_Z (sum (map completed_tasks stats))
   / inject_Z (sum (map total_tasks stats)) <= (8 # 10))%Q ->
  exists recs,
    get_smart_recommendations overdue_count stats time_data = Returns recs
    /\ Forall (fun r => ~ completion_rate_rec r) recs.
Proof.
  intros Hpos Hlow Hhigh. rewrite get_smart_recommendations_rules.
  eexists. split; [reflexivity|].
  apply no_completion_rate_rec_iff, completion_rule_nil_iff. right.
  rewrite avg_completion_of_tasks by exact Hpos. now split.
Qed.

Lemma completion_rate_between_thresholds_witness :
  (exists recs,
      get_smart_recommendations 0 [mk_stats_row "2024-03-09" 10 6 0 0]
        (None, None) = Returns recs
      /\ Forall (fun r => ~ completion_rate_rec r) recs)
  /\ (exists recs,
        get_smart_recommendations 0
          [mk_stats_row "2024-03-08" 2 2 0 0; mk_stats_row "2024-03-09" 3 2 0 0]
          (None, None) = Returns recs
        /\ Forall (fun r => ~ completion_rate_rec r) recs).
Proof.
  split.
  - apply (completion_rate_between_thresholds 0
             [mk_stats_row "2024-03-09" 10 6 0 0] (None, None)).
    + reflexivity.
    + vm_compute. discriminate.
    + vm_compute. discriminate.
  - apply (completion_rate_between_thresholds 0
             [mk_stats_row "2024-03-08" 2 2 0 0; mk_stats_row "2024-03-09" 3 2 0 0]
             (None, None)).
    + reflexivity.
    + vm_compute. discriminate.
    + vm_compute. discriminate.
Defined.

(** C8 as stated fails twice.  With an actual average of 1 and an estimated
    average of 0 both averages are present and [1 > 0 * 1.5], yet nothing is
    emitted: a zero average is false in the presence test.  And when the
    insight is emitted (averages 100 and 50) its title carries a leading
    alarm clock and is not the bare text. *)
Lemma time_estimation_counterexample :
  (round_binary64 (0 * (15 # 10)) < 1)%Q
  /\ get_smart_recommendations 0 [] (Some 1%Q, Some 0%Q) = Returns []
  /\ get_smart_recommendations 0 [] (Some 100%Q, Some 50%Q)
     = Returns [time_estimation]
  /\ rec_title time_estimation <> "Time Estimation"%string.
Proof. repeat split; try (vm_compute; reflexivity); discriminate. Qed.

(** C8, amended.  The output holds the time-estimation insight (type
    "insight", title "⏰ Time Estimation", the fixed advisory message,
    action "Improve time estimates") exactly when both averages are present,
    both are different from zero, and the actual average is strictly
    greater than the binary64 product of the estimated one and 1.5; no
    other dict of type "insight" ever occurs.  In particular, when the
    actual average equals that product, or when either average is absent,
    the output holds no insight. *)
Theorem time_estimation_emitted_iff
    (overdue_count : Z) (stats : list stats_row)
    (time_data : option Q * option Q) :
  exists recs,
    get_smart_recommendations overdue_count stats time_data = Returns recs
    /\ (In {| rec_type := "insight";
              rec_title := "⏰ Time Estimation";
              rec_message :=
                "You're consistently underestimating task duration. Consider adding buffer time.";
              rec_action := "Improve time estimates" |} recs
        <-> exists actual estimated,
              time_data = (Some actual, Some estimated)
              /\ ~ (actual == 0)%Q /\ ~ (estimated == 0)%Q
              /\ (round_binary64 (estimated * (15 # 10)) < actual)%Q)
    /\ (forall r, In r recs -> rec_type r = "insight"%string ->
                  r = time_estimation)
    /\ (forall actual estimated,
          time_data = (Some actual, Some estimated) ->
          (actual == round_binary64 (estimated * (15 # 10)))%Q ->
          Forall (fun r => rec_type r <> "insight"%string) recs)
    /\ (fst time_data = None \/ snd time_data = None ->
        Forall (fun r => rec_type r <> "insight"%string) recs).
Proof.
  rewrite get_smart_recommendations_rules. eexists. split; [reflexivity|].
  fold time_estimation.
  assert (Hother : forall r,
             In r (overdue_rule overdue_count ++ completion_rule stats) ->
             rec_type r <> "insight"%string).
  { intros r Hin Hr. apply in_app_iff in Hin. destruct Hin as [Hin|Hin].
    - pose proof (overdue_rule_types overdue_count) as Ht.
      rewrite Forall_forall in Ht. rewrite (Ht r Hin) in Hr. discriminate.
    - pose proof (completion_rule_types stats) as Ht.
      rewrite Forall_forall in Ht.
      destruct (Ht r Hin) as [E|E]; rewrite E in Hr; discriminate. }
  rewrite app_assoc.
  split; [|split; [|split]].
  - rewrite <- time_condition_iff, in_app_iff.
    destruct (time_rule_cases time_data) as [[E ->]|[E ->]]; rewrite E.
    + split; [|discriminate]. intros [Hin|[]].
      exfalso. now apply (Hother _ Hin).
    + split; [reflexivity|]. intros _. right. now left.
  - intros r Hin Hr. apply in_app_iff in Hin. destruct Hin as [Hin|Hin].
    + exfalso. now apply (Hother r Hin).
    + destruct (time_rule_cases time_data) as [[_ E]|[_ E]];
        rewrite E in Hin; simpl in Hin; intuition.
  - intros actual estimated Htd Heq.
    rewrite <- app_assoc. apply no_insight_rec_iff.
    destruct (time_condition time_data) eqn:E; [|reflexivity].
    apply time_condition_iff in E.
    destruct E as (a & e & Htd' & _ & _ & Hlt).
    rewrite Htd in Htd'. inversion Htd'; subst a e.
    rewrite Heq in Hlt. exfalso. exact (Qlt_irrefl _ Hlt).
  - intros Habsent.
    rewrite <- app_assoc. apply no_insight_rec_iff.
    destruct (time_condition time_data) eqn:E; [|reflexivity].
    apply time_condition_iff in E.
    destruct E as (a & e & -> & _). simpl in Habsent.
    destruct Habsent; discriminate.
Qed.

(** C9.  The output has at most three dicts, and it never holds both a tip
    and a success: the two branches of the completion-rate step exclude
    each other. *)
Theorem at_most_three_and_tip_excludes_success
    (overdue_count : Z) (stats : list stats_row)
    (time_data : option Q * option Q) :
  exists recs,
    get_smart_recommendations overdue_count stats time_data = Returns recs
    /\ (List.length recs <= 3)%nat
    /\ ~ (exists tip success,
             In tip recs /\ In success recs
             /\ rec_type tip = "tip"%string
             /\ rec_type success = "success"%string).
Proof.
  rewrite get_smart_recommendations_rules. eexists. split; [reflexivity|].
  split.
  - rewrite !length_app.
    pose proof (overdue_rule_length overdue_count).
    pose proof (completion_rule_length stats).
    pose proof (time_rule_length time_data). lia.
  - intros (tip & success & Htip & Hsuccess & Etip & Esuccess).
    apply completion_rate_rec_origin in Htip; [|now left].
    apply completion_rate_rec_origin in Hsuccess; [|now right].
    destruct (completion_rule_cases stats) as [E|[E|E]]; rewrite E in *.
    + destruct Htip.
    + destruct Hsuccess as [<-|[]]. discriminate.
    + destruct Htip as [<-|[]]. discriminate.
Qed.

(** C10.  When the actual average is zero, or the estimated average is
    zero, the time rule is skipped and the output holds no insight: the
    presence test treats a zero average like an absent one. *)
Theorem zero_average_skips_time_rule
    (overdue_count : Z) (stats : list stats_row)
    (average_actual average_estimated : option Q) :
  (exists actual, average_actual = Some actual /\ (actual == 0)%Q)
  \/ (exists estimated, average_estimated = Some estimated /\ (estimated == 0)%Q) ->
  exists recs,
    get_smart_recommendations overdue_count stats
      (average_actual, average_estimated) = Returns recs
    /\ Forall (fun r => rec_type r <> "insight"%string) recs.
Proof.
  intros Hzero. rewrite get_smart_recommendations_rules.
  eexists. split; [reflexivity|].
  apply no_insight_rec_iff.
  destruct (time_condition (average_actual, average_estimated)) eqn:E;
    [|reflexivity].
  apply time_condition_iff in E.
  destruct E as (a & e & Htd & Ha & He & _). inversion Htd; subst.
  destruct Hzero as [(a' & Heq & Hz)|(e' & Heq & Hz)];
    inversion Heq; subst; contradiction.
Qed.

Lemma zero_average_skips_time_rule_witness :
  (5 > 0 * (15 # 10))%Q
  /\ exists recs,
       get_smart_recommendations 0 [] (Some 5%Q, Some 0%Q) = Returns recs
       /\ Forall (fun r => rec_type r <> "insight"%string) recs.
Proof.
  split; [reflexivity|].
  apply (zero_average_skips_time_rule 0 [] (Some 5%Q) (Some 0%Q)).
  right. exists 0%Q. split; reflexivity.
Defined.

(** * The tables and the queries: supporting facts *)

Section TextOrder.

Lemma string_leb_iff (a b : string) :
  String.leb a b = true <-> a = b \/ OrderedTypeEx.String_as_OT.lt a b.
Proof.
  unfold String.leb. split.
  - destruct (String.compare a b) eqn:E; [| |discriminate]; intros _.
    + left. now apply OrderedTypeEx.String_as_OT.cmp_eq.
    + right. now apply OrderedTypeEx.String_as_OT.cmp_lt.
  - intros [->|H].
    + replace (String.compare b b) with Eq; [reflexivity|].
      symmetry. now apply OrderedTypeEx.String_as_OT.cmp_eq.
    + apply OrderedTypeEx.String_as_OT.cmp_lt in H. unfold OrderedTypeEx.String_as_OT.cmp in H.
      now rewrite H.
Qed.

Lemma string_leb_refl (a : string) : String.leb a a = true.
Proof. apply string_leb_iff. now left. Qed.

Lemma string_leb_trans (a b c : string) :
  String.leb a b = true -> String.leb b c = true -> String.leb a c = true.
Proof.
  rewrite !string_leb_iff. intros [->|Hab] [->|Hbc]; auto.
  right. eapply OrderedTypeEx.String_as_OT.lt_trans; eauto.
Qed.

Lemma string_ltb_iff (a b : string) :
  String.ltb a b = true <-> OrderedTypeEx.String_as_OT.lt a b.
Proof.
  unfold String.ltb. rewrite <- OrderedTypeEx.String_as_OT.cmp_lt. unfold OrderedTypeEx.String_as_OT.cmp.
  destruct (String.compare a b); split; congruence.
Qed.

Lemma string_ltb_leb_false (a b : string) :
  String.ltb a b = true -> String.leb b a = false.
Proof.
  intros H. destruct (String.leb b a) eqn:E; [|reflexivity].
  apply string_ltb_iff in H. apply string_leb_iff in E.
  destruct E as [->|E].
  - exfalso. exact (OrderedTypeEx.String_as_OT.lt_not_eq _ _ H eq_refl).
  - exfalso.
    exact (OrderedTypeEx.String_as_OT.lt_not_eq _ _ (OrderedTypeEx.String_as_OT.lt_trans _ _ _ H E) eq_refl).
Qed.

End TextOrder.

Section OrderBy.

Context {A : Type} (le : A -> A -> bool).

Lemma insert_sorted_perm (x : A) (l : list A) :
  Permutation (x :: l) (App.insert_sorted le x l).
Proof.
  induction l as [|y l IH]; simpl; [apply Permutation_refl|].
  destruct (le x y); [apply Permutation_refl|].
  eapply perm_trans; [apply perm_swap|]. now apply perm_skip.
Qed.

Lemma order_by_perm (l : list A) : Permutation l (App.order_by le l).
Proof.
  induction l as [|x l IH]; simpl; [constructor|].
  eapply perm_trans; [apply perm_skip, IH|]. apply insert_sorted_perm.
Qed.

Lemma order_by_In (l : list A) (x : A) : In x (App.order_by le l) <-> In x l.
Proof.
  split; apply Permutation_in;
    [apply Permutation_sym|]; apply order_by_perm.
Qed.

Lemma order_by_length (l : list A) :
  List.length (App.order_by le l) = List.length l.
Proof. symmetry. apply Permutation_length, order_by_perm. Qed.

Hypothesis le_total : forall a b, le a b = true \/ le b a = true.
Hypothesis le_trans :
  forall a b c, le a b = true -> le b c = true -> le a c = true.

Lemma insert_sorted_sorted (x : A) (l : list A) :
  StronglySorted (fun a b => le a b = true) l ->
  StronglySorted (fun a b => le a b = true) (App.insert_sorted le x l).
Proof.
  induction 1 as [|y l Hl IH Hy]; simpl.
  - repeat constructor.
  - destruct (le x y) eqn:E.
    + constructor; [now constructor|].
      constructor; [exact E|].
      eapply Forall_impl; [|exact Hy]. intros z Hz. now apply (le_trans x y z).
    + constructor; [exact IH|].
      assert (Hyx : le y x = true)
        by (destruct (le_total x y); [congruence|assumption]).
      eapply Permutation_Forall; [apply insert_sorted_perm|].
      now constructor.
Qed.

Lemma order_by_sorted (l : list A) :
  StronglySorted (fun a b => le a b = true) (App.order_by le l).
Proof.
  induction l as [|x l IH]; simpl; [constructor|].
  now apply insert_sorted_sorted.
Qed.

End OrderBy.

Section Sums.

Lemma sum_shift (xs : list Z) (a : Z) : fold_left Z.add xs a = a + sum xs.
Proof.
  unfold sum. revert a.
  induction xs as [|x xs IH]; intros a; simpl; [lia|].
  rewrite (IH (a + x)), (IH x). lia.
Qed.

Lemma sum_cons (x : Z) (xs : list Z) : sum (x :: xs) = x + sum xs.
Proof. unfold sum at 1. simpl. apply sum_shift. Qed.

Lemma sum_nil : sum [] = 0.
Proof. reflexivity. Qed.

Lemma sum_map_add {A : Type} (f g : A -> Z) (l : list A) :
  sum (map (fun a => f a + g a) l) = sum (map f l) + sum (map g l).
Proof.
  induction l as [|a l IH]; simpl; [reflexivity|].
  rewrite !sum_cons, IH. lia.
Qed.

Lemma sum_map_ext {A : Type} (f g : A -> Z) (l : list A) :
  (forall a, In a l -> f a = g a) -> sum (map f l) = sum (map g l).
Proof.
  intros H. f_equal. apply map_ext_in. exact H.
Qed.

Lemma sum_indicator {A : Type} (p : A -> bool) (l : list A) :
  sum (map (fun a => if p a then 1 else 0) l) = App.count (filter p l).
Proof.
  unfold App.count.
  induction l as [|a l IH]; simpl; [reflexivity|].
  rewrite sum_cons, IH. destruct (p a); cbn [List.length]; lia.
Qed.

Lemma count_as_sum {A : Type} (l : list A) :
  App.count l = sum (map (fun _ => 1) l).
Proof.
  unfold App.count.
  induction l as [|a l IH]; simpl; [reflexivity|].
  rewrite sum_cons, <- IH. cbn [List.length]. lia.
Qed.

Lemma count_filter_le {A : Type} (p : A -> bool) (l : list A) :
  0 <= App.count (filter p l) <= App.count l.
Proof.
  unfold App.count. pose proof (filter_length_le p l). lia.
Qed.

Lemma sum_map_zero {A : Type} (l : list A) : sum (map (fun _ => 0) l) = 0.
Proof.
  induction l as [|a l IH]; simpl; [reflexivity|]. rewrite sum_cons. lia.
Qed.

Lemma sum_single_key (k : string) (v : Z) (keys : list string) :
  NoDup keys -> In k keys ->
  sum (map (fun d => if (k =? d)%string then v else 0) keys) = v.
Proof.
  induction 1 as [|d keys Hd Hnd IH]; intros Hin; [destruct Hin|].
  simpl. rewrite sum_cons. destruct Hin as [->|Hin].
  - rewrite String.eqb_refl.
    rewrite (sum_map_ext _ (fun _ => 0)).
    + rewrite sum_map_zero. lia.
    + intros d Hd'. destruct (String.eqb_spec k d); [subst; contradiction|reflexivity].
  - destruct (String.eqb_spec k d); [subst; contradiction|]. now rewrite IH.
Qed.

(** Summing group by group gives the sum over all rows, when every row's
    key is among the distinct group keys. *)
Lemma sum_by_groups {A : Type} (key : A -> string) (g : A -> Z)
    (l : list A) (keys : list string) :
  NoDup keys -> (forall a, In a l -> In (key a) keys) ->
  sum (map (fun d => sum (map g (filter (fun a => (key a =? d)%string) l))) keys)
  = sum (map g l).
Proof.
  intros Hnd. induction l as [|a l IH]; intros Hkeys.
  - simpl. apply sum_map_zero.
  - rewrite (sum_map_ext _
      (fun d => (if (key a =? d)%string then g a else 0)
                + sum (map g (filter (fun a' => (key a' =? d)%string) l)))).
    + rewrite sum_map_add, IH by (intros; apply Hkeys; now right).
      rewrite sum_single_key; [|exact Hnd|apply Hkeys; now left].
      simpl. now rewrite sum_cons.
    + intros d _. simpl. destruct (key a =? d)%string; simpl.
      * now rewrite sum_cons.
      * lia.
Qed.

End Sums.

(** * The statistics query *)

Section ProductivityStats.

Variable isoformat : Z -> string.

Lemma group_keys_NoDup (keys : list string) : NoDup (App.group_keys keys).
Proof. apply NoDup_nodup. Qed.

Lemma group_keys_In (keys : list string) (k : string) :
  In k (App.group_keys keys) <-> In k keys.
Proof. apply nodup_In. Qed.

Lemma sorted_group_keys_NoDup (le : string -> string -> bool) (keys : list string) :
  NoDup (App.order_by le (App.group_keys keys)).
Proof.
  eapply Permutation_NoDup; [apply order_by_perm|apply group_keys_NoDup].
Qed.

Lemma sorted_group_keys_In (le : string -> string -> bool)
    (keys : list string) (k : string) :
  In k (App.order_by le (App.group_keys keys)) <-> In k keys.
Proof. now rewrite order_by_In, group_keys_In. Qed.

Lemma get_productivity_stats_dates
    (db : App.database) (today user_id days : Z) :
  map stats_date (App.get_productivity_stats isoformat db today user_id days)
  = App.order_by String.leb
      (App.group_keys
         (map App.task_date
            (App.tasks_between db user_id
               (isoformat (today - (days - 1))) (isoformat today)))).
Proof.
  unfold App.get_productivity_stats. cbv zeta.
  rewrite map_map. simpl. apply map_id.
Qed.

Lemma get_productivity_stats_counts
    (db : App.database) (today user_id days : Z) :
  Forall (fun r => 1 <= total_tasks r
                   /\ 0 <= completed_tasks r <= total_tasks r)
    (App.get_productivity_stats isoformat db today user_id days).
Proof.
  unfold App.get_productivity_stats. cbv zeta.
  set (selected := App.tasks_between db user_id _ _).
  apply Forall_map, Forall_forall. intros d Hd.
  apply sorted_group_keys_In, in_map_iff in Hd.
  destruct Hd as (t & Hdate & Ht).
  set (group := filter (fun t0 => (App.task_date t0 =? d)%string) selected).
  assert (Hin : In t group).
  { apply filter_In. split; [exact Ht|]. rewrite Hdate. apply String.eqb_refl. }
  unfold App.stats_of_group. simpl.
  rewrite (sum_indicator (fun t0 => App.task_completed t0 =? 1) group).
  pose proof (count_filter_le (fun t0 => App.task_completed t0 =? 1) group).
  assert (1 <= App.count group).
  { unfold App.count. destruct group; [destruct Hin|]. cbn [List.length]. lia. }
  lia.
Qed.

(** X2.  The statistics query returns one row per date, in ascending date
    order, and every date lies in the window: not before the ISO text of
    [today - (days - 1)] and not after that of [today], as text. *)
Theorem productivity_stats_one_row_per_date_in_window
    (db : App.database) (today user_id days : Z) :
  let stats := App.get_productivity_stats isoformat db today user_id days in
  NoDup (map stats_date stats)
  /\ StronglySorted (fun a b => String.leb a b = true) (map stats_date stats)
  /\ Forall (fun r =>
               String.leb (isoformat (today - (days - 1))) (stats_date r) = true
               /\ String.leb (stats_date r) (isoformat today) = true
               /\ exists t, In t (App.rows (App.tasks db))
                            /\ App.task_user_id t = user_id
                            /\ App.task_date t = stats_date r)
       stats.
Proof.
  cbv zeta. split; [|split].
  - rewrite get_productivity_stats_dates. apply sorted_group_keys_NoDup.
  - rewrite get_productivity_stats_dates.
    apply order_by_sorted; [apply String.leb_total|apply string_leb_trans].
  - apply Forall_forall. intros r Hr.
    assert (Hd : In (stats_date r)
                   (map stats_date
                      (App.get_productivity_stats isoformat db today user_id days)))
      by now apply in_map.
    rewrite get_productivity_stats_dates in Hd.
    apply sorted_group_keys_In, in_map_iff in Hd.
    destruct Hd as (t & Hdate & Ht).
    unfold App.tasks_between in Ht. apply filter_In in Ht.
    destruct Ht as (Ht & Hcond).
    rewrite !andb_true_iff in Hcond. destruct Hcond as ((Hu & Hlo) & Hhi).
    rewrite <- Hdate. split; [exact Hlo|]. split; [exact Hhi|].
    exists t. split; [exact Ht|]. split; [now apply Z.eqb_eq|reflexivity].
Qed.

Lemma get_productivity_stats_sums
    (db : App.database) (today user_id days : Z) :
  let stats := App.get_productivity_stats isoformat db today user_id days in
  let window :=
    App.tasks_between db user_id
      (isoformat (today - (days - 1))) (isoformat today) in
  sum (map total_tasks stats) = App.count window
  /\ sum (map completed_tasks stats)
     = App.count (filter (fun t => App.task_completed t =? 1) window).
Proof.
  cbv zeta. unfold App.get_productivity_stats. cbv zeta.
  set (window := App.tasks_between db user_id _ _).
  set (keys := App.order_by String.leb (App.group_keys (map App.task_date window))).
  assert (Hnd : NoDup keys) by apply sorted_group_keys_NoDup.
  assert (Hin : forall t, In t window -> In (App.task_date t) keys).
  { intros t Ht. apply sorted_group_keys_In. now apply in_map. }
  rewrite !map_map. simpl. split.
  - rewrite (count_as_sum window).
    rewrite <- (sum_by_groups App.task_date (fun _ => 1) window keys Hnd Hin).
    apply sum_map_ext. intros d _. apply count_as_sum.
  - rewrite <- (sum_indicator (fun t => App.task_completed t =? 1) window).
    now rewrite <- (sum_by_groups App.task_date _ window keys Hnd Hin).
Qed.

(** X1.  Every row of the statistics query counts at least one task, and
    its completed count lies between zero and its total. *)
Theorem productivity_stats_rows_well_formed
    (db : App.database) (today user_id days : Z) :
  Forall (fun r => 1 <= total_tasks r
                   /\ 0 <= completed_tasks r <= total_tasks r)
    (App.get_productivity_stats isoformat db today user_id days).
Proof. apply get_productivity_stats_counts. Qed.

(** X3.  Summed over the rows of the statistics query, the totals give the
    number of the user's tasks dated in the window and the completed counts
    give the number of those whose completed flag is 1: grouping by date
    neither loses nor repeats a task. *)
Theorem productivity_stats_column_sums
    (db : App.database) (today user_id days : Z) :
  let stats := App.get_productivity_stats isoformat db today user_id days in
  let window :=
    App.tasks_between db user_id
      (isoformat (today - (days - 1))) (isoformat today) in
  sum (map total_tasks stats) = App.count window
  /\ sum (map completed_tasks stats)
     = App.count (filter (fun t => App.task_completed t =? 1) window).
Proof. apply get_productivity_stats_sums. Qed.

End ProductivityStats.

(** * The recommendations computed from the database *)

Section RecommendationsOfDatabase.

Variable isoformat : Z -> string.






Lemma sum_total_tasks_positive (stats : list stats_row) :
  Forall (fun r => 1 <= total_tasks r
                   /\ 0 <= completed_tasks r <= total_tasks r) stats ->
  stats <> [] <-> 0 < sum (map total_tasks stats).
Proof.
  intros Hall. split.
  - intros Hne. destruct stats as [|r stats]; [congruence|].
    inversion Hall as [|? ? [Hr _] Hrest]; subst. simpl. rewrite sum_cons.
    assert (0 <= sum (map total_tasks stats)); [|lia].
    clear -Hrest. induction Hrest as [|r stats [Hr _] _ IH]; simpl;
      [rewrite sum_nil; lia|rewrite sum_cons; lia].
  - intros Hpos ->. simpl in Hpos. rewrite sum_nil in Hpos. lia.
Qed.


End RecommendationsOfDatabase.

(** * The streak query and the streak computed from the database *)

Section StreakOfDatabase.

Lemma Forall_firstn {A : Type} (P : A -> Prop) (n : nat) (l : list A) :
  Forall P l -> Forall P (firstn n l).
Proof.
  intros H. rewrite <- (firstn_skipn n l) in H.
  now apply Forall_app in H.
Qed.

Lemma NoDup_firstn {A : Type} (n : nat) (l : list A) :
  NoDup l -> NoDup (firstn n l).
Proof.
  intros H. rewrite <- (firstn_skipn n l) in H.
  now apply NoDup_app_remove_r in H.
Qed.

Lemma StronglySorted_firstn {A : Type} (R : A -> A -> Prop) (n : nat)
    (l : list A) :
  StronglySorted R l -> StronglySorted R (firstn n l).
Proof.
  intros H. revert n.
  induction H as [|a l Hl IH Ha]; intros [|n]; simpl; try constructor.
  - apply IH.
  - now apply Forall_firstn.
Qed.

Lemma count_pos_iff {A : Type} (l : list A) :
  0 < App.count l <-> exists a, In a l.
Proof.
  unfold App.count. destruct l as [|a l]; simpl.
  - split; [lia|intros (a & [])].
  - split; [intros _; exists a; now left|lia].
Qed.

Lemma streak_flag_cases (selected : list App.task) (d : string) :
  (streak_flag selected d = 1
   /\ exists t, In t selected /\ App.task_date t = d
                /\ App.task_completed t = 1)
  \/ (streak_flag selected d = 0
      /\ forall t, In t selected -> App.task_date t = d ->
                   App.task_completed t <> 1).
Proof.
  unfold streak_flag. cbv zeta.
  set (group := filter (fun t => (App.task_date t =? d)%string) selected).
  rewrite (sum_indicator (fun t => App.task_completed t =? 1) group).
  destruct (Z.gtb_spec
              (App.count (filter (fun t => App.task_completed t =? 1) group)) 0)
    as [Hpos|Hle].
  - apply count_pos_iff in Hpos. destruct Hpos as (t & Ht).
    apply filter_In in Ht. destruct Ht as (Ht & Hc).
    pose proof Ht as Ht'. apply filter_In in Ht'. destruct Ht' as (Hsel & Hd).
    left. split.
    + assert (0 < App.count group) by (apply count_pos_iff; now exists t).
      destruct (Z.gtb_spec (App.count group) 0); [reflexivity|lia].
    + exists t. split; [exact Hsel|].
      split; [now apply String.eqb_eq|now apply Z.eqb_eq].
  - right. split; [now rewrite andb_false_r|].
    intros t Hsel Hd Hc.
    assert (0 < App.count (filter (fun t => App.task_completed t =? 1) group));
      [|lia].
    apply count_pos_iff. exists t. apply filter_In. split.
    + apply filter_In. split; [exact Hsel|]. now apply String.eqb_eq.
    + now apply Z.eqb_eq.
Qed.

Lemma streak_rows_eq (db : App.database) (user_id : Z) :
  App.streak_rows db user_id
  = firstn 30
      (map (fun d => {| day_date := d;
                        productive_day := streak_flag (user_tasks db user_id) d |})
         (streak_dates db user_id)).
Proof. reflexivity. Qed.

Lemma streak_rows_dates (db : App.database) (user_id : Z) :
  map day_date (App.streak_rows db user_id)
  = firstn 30 (streak_dates db user_id).
Proof.
  rewrite streak_rows_eq, <- firstn_map, map_map. simpl. now rewrite map_id.
Qed.

Lemma streak_dates_sorted (db : App.database) (user_id : Z) :
  StronglySorted (fun a b => String.leb b a = true) (streak_dates db user_id).
Proof.
  apply (order_by_sorted (fun a b => String.leb b a)).
  - intros a b. destruct (String.leb_total a b); auto.
  - intros a b c Hab Hbc. now apply (string_leb_trans c b a).
Qed.

Lemma streak_dates_In (db : App.database) (user_id : Z) (d : string) :
  In d (streak_dates db user_id)
  <-> exists t, In t (App.rows (App.tasks db))
                /\ App.task_user_id t = user_id /\ App.task_date t = d.
Proof.
  unfold streak_dates. rewrite sorted_group_keys_In, in_map_iff.
  unfold user_tasks. split.
  - intros (t & Hd & Ht). apply filter_In in Ht. destruct Ht as (Ht & Hu).
    exists t. split; [exact Ht|]. split; [now apply Z.eqb_eq|exact Hd].
  - intros (t & Ht & Hu & Hd). exists t. split; [exact Hd|].
    apply filter_In. split; [exact Ht|]. now apply Z.eqb_eq.
Qed.

Lemma user_tasks_In (db : App.database) (user_id : Z) (t : App.task) :
  In t (user_tasks db user_id)
  <-> In t (App.rows (App.tasks db)) /\ App.task_user_id t = user_id.
Proof.
  unfold user_tasks. rewrite filter_In, Z.eqb_eq. reflexivity.
Qed.

(** X5.  The streak query returns at most thirty rows, one per date on
    which the user has a task, most recent date first.  A row's flag is 1
    when one of the user's tasks of that date is completed and 0 when none
    is. *)
Theorem streak_rows_shape (db : App.database) (user_id : Z) :
  let days := App.streak_rows db user_id in
  (List.length days <= 30)%nat
  /\ NoDup (map day_date days)
  /\ StronglySorted (fun a b => String.leb b a = true) (map day_date days)
  /\ Forall (fun r =>
               (exists t, In t (App.rows (App.tasks db))
                          /\ App.task_user_id t = user_id
                          /\ App.task_date t = day_date r)
               /\ ((productive_day r = 1
                    /\ exists t, In t (App.rows (App.tasks db))
                                 /\ App.task_user_id t = user_id
                                 /\ App.task_date t = day_date r
                                 /\ App.task_completed t = 1)
                   \/ (productive_day r = 0
                       /\ forall t, In t (App.rows (App.tasks db)) ->
                                    App.task_user_id t = user_id ->
                                    App.task_date t = day_date r ->
                                    App.task_completed t <> 1)))
       days.
Proof.
  cbv zeta. split; [|split; [|split]].
  - rewrite streak_rows_eq. apply firstn_le_length.
  - rewrite streak_rows_dates. apply NoDup_firstn.
    apply sorted_group_keys_NoDup.
  - rewrite streak_rows_dates. apply StronglySorted_firstn.
    apply streak_dates_sorted.
  - rewrite streak_rows_eq. apply Forall_firstn, Forall_map, Forall_forall.
    intros d Hd. simpl. split; [now apply streak_dates_In|].
    destruct (streak_flag_cases (user_tasks db user_id) d)
      as [(E & t & Ht & Hdate & Hc)|(E & Hnone)].
    + left. split; [exact E|]. apply user_tasks_In in Ht.
      destruct Ht as (Ht & Hu). now exists t.
    + right. split; [exact E|]. intros t Ht Hu Hdate.
      apply Hnone; [|exact Hdate]. now apply user_tasks_In.
Qed.

Lemma get_streak_data_positive_iff (days : list day_row) :
  1 <= get_streak_data days
  <-> exists d rest, days = d :: rest /\ productive_day d = 1.
Proof.
  destruct days as [|d rest].
  - split; [unfold get_streak_data; simpl; lia|intros (d & rest & H & _); discriminate].
  - rewrite get_streak_data_cons. destruct (Z.eqb_spec (productive_day d) 1) as [E|E].
    + split; [intros _; now exists d, rest|intros _].
      pose proof (get_streak_data_prefix rest). lia.
    + split; [lia|]. intros (d' & rest' & H & Hd). inversion H; subst. contradiction.
Qed.

(** X6.  The streak shown on the dashboard lies between 0 and 30.  It is at
    least 1 exactly when the user has a completed task whose date is, as
    text, the latest date among all the user's tasks. *)
Theorem streak_of_database (db : App.database) (user_id : Z) :
  0 <= App.get_streak_data db user_id <= 30
  /\ (1 <= App.get_streak_data db user_id
      <-> exists t,
            In t (App.rows (App.tasks db))
            /\ App.task_user_id t = user_id
            /\ App.task_completed t = 1
            /\ forall t', In t' (App.rows (App.tasks db)) ->
                          App.task_user_id t' = user_id ->
                          String.leb (App.task_date t') (App.task_date t) = true).
Proof.
  unfold App.get_streak_data. split.
  - rewrite get_streak_data_prefix.
    pose proof (productive_prefix_length (App.streak_rows db user_id)).
    assert (List.length (App.streak_rows db user_id) <= 30)%nat
      by (rewrite streak_rows_eq; apply firstn_le_length).
    lia.
  - rewrite get_streak_data_positive_iff, streak_rows_eq.
    pose proof (streak_dates_sorted db user_id) as Hsorted.
    pose proof (streak_dates_In db user_id) as Hin.
    destruct (streak_dates db user_id) as [|d0 dates]; simpl.
    + split; [intros (d & rest & H & _); discriminate|].
      intros (t & Ht & Hu & _). exfalso.
      apply (proj2 (Hin (App.task_date t))). now exists t.
    + apply StronglySorted_inv in Hsorted. destruct Hsorted as [_ Hmax].
      rewrite Forall_forall in Hmax.
      assert (Hlatest : forall t', In t' (App.rows (App.tasks db)) ->
                                   App.task_user_id t' = user_id ->
                                   String.leb (App.task_date t') d0 = true).
      { intros t' Ht' Hu'.
        destruct (proj2 (Hin (App.task_date t'))) as [<-|Hd];
          [now exists t'|apply string_leb_refl|now apply Hmax]. }
      destruct (streak_flag_cases (user_tasks db user_id) d0)
        as [(E & t & Ht & Hdate & Hc)|(E & Hnone)].
      * split.
        -- intros _. apply user_tasks_In in Ht. destruct Ht as (Ht & Hu).
           exists t. repeat split; try assumption.
           rewrite Hdate. exact Hlatest.
        -- intros _. eexists _, _. split; [reflexivity|exact E].
      * split.
        -- intros (d & rest & H & Hd). inversion H; subst. simpl in Hd.
           rewrite E in Hd. discriminate.
        -- intros (t & Ht & Hu & Hc & Hlast). exfalso.
           apply (Hnone t); [now apply user_tasks_In| |exact Hc].
           apply String.leb_antisym; [now apply Hlatest|].
           destruct (proj1 (Hin d0) (or_introl eq_refl)) as (t0 & Ht0 & Hu0 & Hd0).
           rewrite <- Hd0. now apply Hlast.
Qed.

End StreakOfDatabase.

(** * The tasks table under the application's own operations *)

Section TasksTable.


Lemma add_task_keeps_keys (db : App.database) (current_timestamp : string)
    (user_id : Z) (title description category priority date_ time_slot : string)
    (estimated_duration : Z) (tags recurring : string) :
  tasks_well_keyed db ->
  tasks_well_keyed
    (App.add_task db current_timestamp user_id title description category
       priority date_ time_slot estimated_duration tags recurring).
Proof.
  intros [Hnd Hle]. unfold tasks_well_keyed, App.add_task. simpl. split.
  - rewrite map_app. simpl.
    apply Permutation_NoDup with (l := App.seq (App.tasks db) + 1
                                       :: map App.task_id (App.rows (App.tasks db))).
    + apply Permutation_cons_append.
    + constructor; [|exact Hnd]. intros Hin. apply in_map_iff in Hin.
      destruct Hin as (t & Hid & Ht). rewrite Forall_forall in Hle.
      specialize (Hle t Ht). lia.
  - apply Forall_app. split.
    + eapply Forall_impl; [|exact Hle]. simpl. intros; lia.
    + repeat constructor. simpl. lia.
Qed.

Lemma NoDup_map_same_key {A B : Type} (f : A -> B) (l : list A) (a b : A) :
  NoDup (map f l) -> In a l -> In b l -> f a = f b -> a = b.
Proof.
  induction l as [|x l IH]; simpl; intros Hnd Ha Hb Hf; [destruct Ha|].
  inversion Hnd as [|? ? Hx Hl]; subst.
  destruct Ha as [->|Ha], Hb as [->|Hb]; auto.
  - exfalso. apply Hx. rewrite Hf. now apply in_map.
  - exfalso. apply Hx. rewrite <- Hf. now apply in_map.
Qed.





End TasksTable.

(** * Rounding to binary64

    What the proofs about averages and the time rule need of the rounding:
    it is monotone on the non-negative numbers, and from 1 up it loses less
    than a third of the value. *)

Section Rounding.
Local Open Scope Q_scope.










End Rounding.

Section Binary64.
Local Open Scope Q_scope.








End Binary64.

Section TimeInsightUnreachable.

Variable isoformat : Z -> string.








End TimeInsightUnreachable.

(** * Reading and writing tasks *)

Section Tasks.


Lemma by_time_slot_priority_desc_iff (a b : App.task) :
  App.by_time_slot_priority_desc a b = true
  <-> OrderedTypeEx.String_as_OT.lt (App.task_time_slot a) (App.task_time_slot b)
      \/ (App.task_time_slot a = App.task_time_slot b
          /\ String.leb (App.task_priority b) (App.task_priority a) = true).
Proof.
  unfold App.by_time_slot_priority_desc.
  destruct (String.compare (App.task_time_slot a) (App.task_time_slot b)) eqn:E.
  - apply OrderedTypeEx.String_as_OT.cmp_eq in E. split.
    + intros H. right. now split.
    + intros [H|[_ H]]; [|exact H]. exfalso.
      exact (OrderedTypeEx.String_as_OT.lt_not_eq _ _ H E).
  - apply OrderedTypeEx.String_as_OT.cmp_lt in E. split; auto.
  - split; [discriminate|].
    assert (Hgt : OrderedTypeEx.String_as_OT.lt
                    (App.task_time_slot b) (App.task_time_slot a)).
    { apply OrderedTypeEx.String_as_OT.cmp_lt.
      unfold OrderedTypeEx.String_as_OT.cmp.
      rewrite String.compare_antisym, E. reflexivity. }
    intros [H|[H _]]; exfalso.
    + exact (OrderedTypeEx.String_as_OT.lt_not_eq _ _
               (OrderedTypeEx.String_as_OT.lt_trans _ _ _ H Hgt) eq_refl).
    + symmetry in H. exact (OrderedTypeEx.String_as_OT.lt_not_eq _ _ Hgt H).
Qed.

Lemma by_time_slot_priority_desc_total (a b : App.task) :
  App.by_time_slot_priority_desc a b = true
  \/ App.by_time_slot_priority_desc b a = true.
Proof.
  rewrite !by_time_slot_priority_desc_iff.
  destruct (String.compare (App.task_time_slot a) (App.task_time_slot b)) eqn:E.
  - apply OrderedTypeEx.String_as_OT.cmp_eq in E.
    destruct (String.leb_total (App.task_priority a) (App.task_priority b));
      [right|left]; right; split; auto.
  - apply OrderedTypeEx.String_as_OT.cmp_lt in E. now left; left.
  - right; left. apply OrderedTypeEx.String_as_OT.cmp_lt.
    unfold OrderedTypeEx.String_as_OT.cmp.
    rewrite String.compare_antisym, E. reflexivity.
Qed.

Lemma by_time_slot_priority_desc_trans (a b c : App.task) :
  App.by_time_slot_priority_desc a b = true ->
  App.by_time_slot_priority_desc b c = true ->
  App.by_time_slot_priority_desc a c = true.
Proof.
  rewrite !by_time_slot_priority_desc_iff.
  intros [Hab|[Hab Pab]] [Hbc|[Hbc Pbc]].
  - left. eapply OrderedTypeEx.String_as_OT.lt_trans; eauto.
  - left. now rewrite <- Hbc.
  - left. now rewrite Hab.
  - right. split; [congruence|]. eapply string_leb_trans; eauto.
Qed.

Lemma get_tasks_sorted (db : App.database) (user_id : Z)
    (selected_date category priority : option string) :
  StronglySorted (fun a b => App.by_time_slot_priority_desc a b = true)
    (App.get_tasks db user_id selected_date category priority).
Proof.
  unfold App.get_tasks. apply order_by_sorted.
  - apply by_time_slot_priority_desc_total.
  - apply by_time_slot_priority_desc_trans.
Qed.

Lemma clause_iff (active : bool) (arg : option string) (column : string) :
  App.clause active arg column = true
  <-> forall v, arg = Some v -> active = true -> column = v.
Proof.
  unfold App.clause. destruct arg as [v|].
  - destruct active.
    + rewrite String.eqb_eq. split; [intros -> v' [= <-] _; reflexivity|].
      intros H. now apply H.
    + split; [intros _ v' _; discriminate|reflexivity].
  - split; [intros _ v; discriminate|reflexivity].
Qed.

Lemma filter_NoDup_map {K R : Type} (key : R -> K) (keep : R -> bool)
    (table_rows : list R) (Hdistinct : NoDup (map key table_rows)) :
  NoDup (map key (filter keep table_rows)).
Proof.
  revert Hdistinct.
  induction table_rows as [|r rest IH]; simpl; intros Hnd; [constructor|].
  inversion Hnd as [|? ? Hr Hrest]; subst.
  destruct (keep r); simpl; [|now apply IH].
  constructor; [|now apply IH].
  intros Hin. apply Hr. apply in_map_iff in Hin.
  destruct Hin as (x & Hx & Hin). apply filter_In in Hin.
  rewrite <- Hx. apply in_map. tauto.
Qed.

(** X8.  [get_tasks] returns exactly the user's tasks that pass the
    filters that are switched on: the date when one is given, the category
    and the priority when one is given and is not "All"; an argument that is
    [None] or empty filters nothing.  No task is listed twice when keys are
    distinct.  The result is ordered by time slot, and within a time slot
    by priority in descending text order. *)
Theorem get_tasks_selects_and_orders (db : App.database) (user_id : Z)
    (selected_date category priority : option string) :
  let listed := App.get_tasks db user_id selected_date category priority in
  (forall t,
      In t listed <->
      In t (App.rows (App.tasks db))
      /\ App.task_user_id t = user_id
      /\ (forall v, selected_date = Some v -> v <> ""%string ->
                    App.task_date t = v)
      /\ (forall v, category = Some v -> v <> ""%string -> v <> "All"%string ->
                    App.task_category t = v)
      /\ (forall v, priority = Some v -> v <> ""%string -> v <> "All"%string ->
                    App.task_priority t = v))
  /\ (NoDup (map App.task_id (App.rows (App.tasks db))) ->
      NoDup (map App.task_id listed))
  /\ StronglySorted
       (fun a b =>
          OrderedTypeEx.String_as_OT.lt (App.task_time_slot a) (App.task_time_slot b)
          \/ (App.task_time_slot a = App.task_time_slot b
              /\ String.leb (App.task_priority b) (App.task_priority a) = true))
       listed.
Proof.
  cbv zeta. split; [|split].
  - intros t. unfold App.get_tasks.
    rewrite order_by_In, filter_In, !andb_true_iff, !clause_iff, Z.eqb_eq.
    assert (Hgiven : forall v, App.given (Some v) = true <-> v <> ""%string).
    { intros v. simpl. rewrite negb_true_iff, String.eqb_neq. reflexivity. }
    assert (Hnot_all : forall v, App.not_all (Some v) = true <-> v <> "All"%string).
    { intros v. simpl. rewrite negb_true_iff, String.eqb_neq. reflexivity. }
    split.
    + intros (Ht & ((Hu & Hd) & Hc) & Hp). repeat split; try assumption.
      * intros v -> Hv. apply (Hd v eq_refl). now apply Hgiven.
      * intros v -> Hv Hall. apply (Hc v eq_refl).
        apply andb_true_iff. split; [now apply Hgiven|now apply Hnot_all].
      * intros v -> Hv Hall. apply (Hp v eq_refl).
        apply andb_true_iff. split; [now apply Hgiven|now apply Hnot_all].
    + intros (Ht & Hu & Hd & Hc & Hp). repeat split; try assumption.
      * intros v -> Hv. apply (Hd v eq_refl). now apply Hgiven.
      * intros v -> Hv. apply andb_true_iff in Hv. destruct Hv as [Hv1 Hv2].
        apply (Hc v eq_refl); [now apply Hgiven|now apply Hnot_all].
      * intros v -> Hv. apply andb_true_iff in Hv. destruct Hv as [Hv1 Hv2].
        apply (Hp v eq_refl); [now apply Hgiven|now apply Hnot_all].
  - intros Hnd. unfold App.get_tasks.
    eapply Permutation_NoDup;
      [apply Permutation_map, order_by_perm|].
    now apply filter_NoDup_map.
  - eapply StronglySorted_ind with (P := StronglySorted _);
      [constructor| |apply get_tasks_sorted].
    intros a l _ IH Ha. constructor; [exact IH|].
    eapply Forall_impl; [|exact Ha].
    intros b Hb. now apply by_time_slot_priority_desc_iff.
Qed.



End Tasks.

Section TaskWrites.


Lemma set_tasks_same (db : App.database) :
  App.set_tasks db
    {| App.rows := App.rows (App.tasks db); App.seq := App.seq (App.tasks db) |}
  = db.
Proof. destruct db as [u [r s] c g h l]. reflexivity. Qed.

Lemma map_if_none {A : Type} (p : A -> bool) (f : A -> A) (l : list A) :
  (forall a, In a l -> p a = false) ->
  map (fun a => if p a then f a else a) l = l.
Proof.
  intros H. rewrite <- (map_id l) at 2. apply map_ext_in.
  intros a Ha. now rewrite (H a Ha).
Qed.

Lemma filter_all {A : Type} (p : A -> bool) (l : list A) :
  (forall a, In a l -> p a = true) -> filter p l = l.
Proof.
  induction l as [|a l IH]; simpl; intros H; [reflexivity|].
  rewrite (H a (or_introl eq_refl)). f_equal. apply IH. intros; apply H; now right.
Qed.

(** X10.  On a table whose keys are distinct and bounded by its sequence,
    [add_task] appends one row: not completed, without actual duration,
    with the values passed in, under a key larger than every key in the
    table.  Keys stay distinct and bounded, and [get_tasks] for that user
    and date lists the new task. *)
Theorem add_task_appends_fresh_row (db : App.database)
    (current_timestamp : string) (user_id : Z)
    (title description category priority date_ time_slot : string)
    (estimated_duration : Z) (tags recurring : string) :
  tasks_well_keyed db ->
  let db' := App.add_task db current_timestamp user_id title description
               category priority date_ time_slot estimated_duration tags
               recurring in
  exists t,
    App.rows (App.tasks db') = App.rows (App.tasks db) ++ [t]
    /\ (forall t', In t' (App.rows (App.tasks db)) -> App.task_id t' < App.task_id t)
    /\ t = App.mk_task (App.task_id t) user_id title description category priority
             0 date_ time_slot estimated_duration None current_timestamp None
             tags recurring None
    /\ tasks_well_keyed db'
    /\ In t (App.get_tasks db' user_id (Some date_) None None).
Proof.
  intros Hkeys. cbv zeta. eexists. split; [reflexivity|].
  split; [|split; [reflexivity|split]].
  - intros t' Ht'. destruct Hkeys as [_ Hle]. rewrite Forall_forall in Hle.
    specialize (Hle t' Ht'). simpl. lia.
  - now apply add_task_keeps_keys.
  - unfold App.get_tasks. apply order_by_In, filter_In. split.
    + simpl. apply in_or_app. right. now left.
    + simpl. rewrite Z.eqb_refl. simpl.
      destruct (negb (date_ =? "")%string); [|reflexivity].
      now rewrite String.eqb_refl.
Qed.

Lemma add_task_appends_fresh_row_witness :
  exists t,
    App.rows (App.tasks
      (App.add_task App.init_db "2024-03-08 18:00:00" 1 "Call the bank" ""
         "Personal" "high" "2024-03-09" "09:00-10:00" 30 "" "none"))
    = App.rows (App.tasks App.init_db) ++ [t]
    /\ (forall t', In t' (App.rows (App.tasks App.init_db)) ->
                   App.task_id t' < App.task_id t)
    /\ t = App.mk_task (App.task_id t) 1 "Call the bank" "" "Personal" "high"
             0 "2024-03-09" "09:00-10:00" 30 None "2024-03-08 18:00:00" None
             "" "none" None
    /\ tasks_well_keyed
         (App.add_task App.init_db "2024-03-08 18:00:00" 1 "Call the bank" ""
            "Personal" "high" "2024-03-09" "09:00-10:00" 30 "" "none")
    /\ In t (App.get_tasks
               (App.add_task App.init_db "2024-03-08 18:00:00" 1 "Call the bank"
                  "" "Personal" "high" "2024-03-09" "09:00-10:00" 30 "" "none")
               1 (Some "2024-03-09"%string) None None).
Proof.
  apply (add_task_appends_fresh_row App.init_db).
  split; simpl; constructor.
Defined.

(** X11.  [complete_task] on a key no task has changes nothing.  On the key
    of a task of a table with distinct keys it rewrites that task only:
    the completed flag becomes 1, the completion time and the actual
    duration are the ones passed in, every other column and every other
    task are kept. *)
Theorem complete_task_marks_one_task (db : App.database) (now : string)
    (task_id_ : Z) (actual_duration : option Z) :
  let db' := App.complete_task db now task_id_ actual_duration in
  ((forall t, In t (App.rows (App.tasks db)) -> App.task_id t <> task_id_) ->
   db' = db)
  /\ (NoDup (map App.task_id (App.rows (App.tasks db))) ->
      forall t, In t (App.rows (App.tasks db)) -> App.task_id t = task_id_ ->
      let t' := App.mk_task (App.task_id t) (App.task_user_id t)
                  (App.task_title t) (App.task_description t)
                  (App.task_category t) (App.task_priority t) 1
                  (App.task_date t) (App.task_time_slot t)
                  (App.task_estimated_duration t) actual_duration
                  (App.task_created_at t) (Some now) (App.task_tags t)
                  (App.task_recurring t) (App.task_parent_task_id t) in
      forall r, In r (App.rows (App.tasks db')) <->
                r = t' \/ (In r (App.rows (App.tasks db)) /\ r <> t)).
Proof.
  cbv zeta. split.
  - intros Hmissing. unfold App.complete_task, App.update.
    rewrite map_if_none; [apply set_tasks_same|].
    intros t Ht. apply Z.eqb_neq. now apply Hmissing.
  - intros Hnd t Ht Hid r. unfold App.complete_task, App.update. simpl.
    rewrite in_map_iff. split.
    + intros (x & Hx & Hin).
      destruct (Z.eqb_spec (App.task_id x) task_id_) as [E|E].
      * assert (x = t) as ->
          by (apply (NoDup_map_same_key App.task_id
                       (App.rows (App.tasks db))); congruence).
        left. now symmetry.
      * right. subst r. split; [exact Hin|]. intros ->. contradiction.
    + intros [->|[Hin Hne]].
      * exists t. split; [|exact Ht]. rewrite Hid, Z.eqb_refl. reflexivity.
      * exists r. split; [|exact Hin].
        destruct (Z.eqb_spec (App.task_id r) task_id_) as [E|E]; [|reflexivity].
        exfalso. apply Hne.
        apply (NoDup_map_same_key App.task_id (App.rows (App.tasks db)));
          congruence.
Qed.

Lemma complete_task_marks_one_task_witness :
  In (App.mk_task 1 1 "Call the bank" "" "Personal" "high" 1 "2024-03-09"
        "09:00-10:00" 30 (Some 40) "2024-03-08 18:00:00"
        (Some "2024-03-09T10:00:00"%string) "" "none" None)
     (App.rows (App.tasks
        (App.complete_task two_tasks "2024-03-09T10:00:00" 1 (Some 40))))
  /\ In (App.mk_task 2 1 "Read chapter 3" "" "Learning" "medium" 0 "2024-03-09"
           "10:00-11:00" 45 None "2024-03-08 18:05:00" None "" "none" None)
        (App.rows (App.tasks
           (App.complete_task two_tasks "2024-03-09T10:00:00" 1 (Some 40))))
  /\ ~ In (App.mk_task 1 1 "Call the bank" "" "Personal" "high" 0 "2024-03-09"
             "09:00-10:00" 30 None "2024-03-08 18:00:00" None "" "none" None)
          (App.rows (App.tasks
             (App.complete_task two_tasks "2024-03-09T10:00:00" 1 (Some 40)))).
Proof.
  destruct (complete_task_marks_one_task two_tasks "2024-03-09T10:00:00" 1
              (Some 40)) as [_ Hone].
  assert (Hkeys : NoDup (map App.task_id (App.rows (App.tasks two_tasks)))).
  { change (NoDup [1; 2]). constructor; [|constructor; [|constructor]].
    - intros [E|[]]. discriminate E.
    - intros []. }
  specialize (Hone Hkeys
                (App.mk_task 1 1 "Call the bank" "" "Personal" "high" 0
                   "2024-03-09" "09:00-10:00" 30 None "2024-03-08 18:00:00"
                   None "" "none" None)
                (or_introl eq_refl) eq_refl).
  cbv zeta in Hone. split; [|split].
  - apply Hone. left. reflexivity.
  - apply Hone. right. split; [right; left; reflexivity|discriminate].
  - intros Hin. apply Hone in Hin. destruct Hin as [E|[_ Hne]].
    + discriminate E.
    + now apply Hne.
Defined.

(** X12.  [delete_task] on a key no task has changes nothing; otherwise it
    removes the tasks with that key and keeps all others, in their order,
    and the sequence of the table is not lowered, so the key is not handed
    out again by the next [add_task]. *)
Theorem delete_task_removes_by_key (db : App.database) (task_id_ : Z) :
  let db' := App.delete_task db task_id_ in
  ((forall t, In t (App.rows (App.tasks db)) -> App.task_id t <> task_id_) ->
   db' = db)
  /\ (forall t, In t (App.rows (App.tasks db')) <->
                In t (App.rows (App.tasks db)) /\ App.task_id t <> task_id_)
  /\ App.seq (App.tasks db') = App.seq (App.tasks db)
  /\ (tasks_well_keyed db ->
      forall current_timestamp user_id title description category priority
             date_ time_slot estimated_duration tags recurring t,
        In t (App.rows (App.tasks db)) ->
        Forall (fun t' => App.task_id t' <> App.task_id t)
          (App.rows (App.tasks
             (App.add_task (App.delete_task db (App.task_id t))
                current_timestamp user_id title description category priority
                date_ time_slot estimated_duration tags recurring)))).
Proof.
  cbv zeta. split; [|split; [|split]].
  - intros Hmissing. unfold App.delete_task, App.delete.
    rewrite filter_all; [apply set_tasks_same|].
    intros t Ht. apply negb_true_iff, Z.eqb_neq. now apply Hmissing.
  - intros t. unfold App.delete_task, App.delete. simpl.
    now rewrite filter_In, negb_true_iff, Z.eqb_neq.
  - reflexivity.
  - intros [Hnd Hle] ts u ti de ca pr da sl es ta re t Ht.
    unfold App.add_task, App.delete_task, App.insert, App.delete. simpl.
    apply Forall_app. split.
    + apply Forall_forall. intros t' Ht'. apply filter_In in Ht'.
      destruct Ht' as [_ Hne]. now apply negb_true_iff, Z.eqb_neq in Hne.
    + repeat constructor. simpl. rewrite Forall_forall in Hle.
      specialize (Hle t Ht). lia.
Qed.

Lemma delete_task_removes_by_key_witness :
  (In (App.mk_task 2 1 "Read chapter 3" "" "Learning" "medium" 0 "2024-03-09"
         "10:00-11:00" 45 None "2024-03-08 18:05:00" None "" "none" None)
      (App.rows (App.tasks (App.delete_task two_tasks 1)))
   /\ ~ In (App.mk_task 1 1 "Call the bank" "" "Personal" "high" 0 "2024-03-09"
              "09:00-10:00" 30 None "2024-03-08 18:00:00" None "" "none" None)
           (App.rows (App.tasks (App.delete_task two_tasks 1))))
  /\ App.seq (App.tasks (App.delete_task two_tasks 1)) = 2
  /\ Forall (fun t' => App.task_id t' <> 1)
       (App.rows (App.tasks
          (App.add_task (App.delete_task two_tasks 1) "2024-03-09 12:00:00" 1
             "Water the plants" "" "Personal" "low" "2024-03-10" "08:00-09:00"
             15 "" "none"))).
Proof.
  destruct (delete_task_removes_by_key two_tasks 1)
    as (_ & Hrows & Hseq & Hfresh).
  split; [split|split].
  - apply Hrows. split; [right; left; reflexivity|discriminate].
  - intros Hin. apply Hrows in Hin. destruct Hin as [_ Hne]. now apply Hne.
  - rewrite Hseq. reflexivity.
  - apply (Hfresh
             ltac:(split;
                   [change (NoDup [1; 2]);
                    constructor; [|constructor; [|constructor]];
                    [intros [E|[]]; discriminate E|intros []]
                   |repeat constructor; simpl; lia])
             "2024-03-09 12:00:00"%string 1 "Water the plants"%string
             ""%string "Personal"%string "low"%string "2024-03-10"%string
             "08:00-09:00"%string 15 ""%string "none"%string
             (App.mk_task 1 1 "Call the bank" "" "Personal" "high" 0
                "2024-03-09" "09:00-10:00" 30 None "2024-03-08 18:00:00" None
                "" "none" None)).
    left. reflexivity.
Defined.

End TaskWrites.

(** * Habits *)

Section Habits.

Lemma find_map_same_test {A : Type} (p : A -> bool) (f : A -> A) (l : list A) :
  (forall a, p (f a) = p a) ->
  find p (map f l) = option_map f (find p l).
Proof.
  intros H. induction l as [|a l IH]; simpl; [reflexivity|].
  rewrite H. destruct (p a); [reflexivity|exact IH].
Qed.

Lemma find_app_last {A : Type} (p : A -> bool) (l : list A) (a : A) :
  find p l = None -> p a = true -> find p (l ++ [a]) = Some a.
Proof.
  induction l as [|x l IH]; simpl; intros Hnone Ha; [now rewrite Ha|].
  destruct (p x); [discriminate|now apply IH].
Qed.

Lemma log_habit_habits (db : App.database) (habit_id_ : Z) (date_str : string)
    (completed : bool) (notes : string) :
  App.rows (App.habits (App.log_habit db habit_id_ date_str completed notes))
  = map (fun h =>
           if App.habit_id h =? habit_id_
           then if completed
                then App.set_best_streak
                       (App.set_streak h (App.habit_streak h + 1))
                       (Z.max (App.habit_best_streak h) (App.habit_streak h + 1))
                else App.set_streak h 0
           else h)
      (App.rows (App.habits db)).
Proof.
  unfold App.log_habit.
  destruct (find (App.log_of habit_id_ date_str) (App.rows (App.habit_logs db)));
    destruct completed; simpl; try reflexivity;
    rewrite map_map; apply map_ext; intros x;
    destruct (App.habit_id x =? habit_id_) eqn:E; simpl; rewrite ?E; reflexivity.
Qed.

Lemma log_habit_logs (db : App.database) (habit_id_ : Z) (date_str : string)
    (completed : bool) (notes : string) :
  App.rows (App.habit_logs (App.log_habit db habit_id_ date_str completed notes))
  = match find (App.log_of habit_id_ date_str) (App.rows (App.habit_logs db)) with
    | Some _ =>
        map (fun l =>
               if App.log_of habit_id_ date_str l
               then App.mk_habit_log (App.log_id l) (App.log_habit_id l)
                      (App.log_date l) completed notes
               else l)
          (App.rows (App.habit_logs db))
    | None =>
        App.rows (App.habit_logs db)
        ++ [App.mk_habit_log (App.seq (App.habit_logs db) + 1) habit_id_ date_str
              completed notes]
    end.
Proof.
  unfold App.log_habit.
  destruct (find (App.log_of habit_id_ date_str) (App.rows (App.habit_logs db)));
    destruct completed; reflexivity.
Qed.

Lemma log_of_iff (habit_id_ : Z) (date_str : string) (l : App.habit_log) :
  App.log_of habit_id_ date_str l = true
  <-> (App.log_habit_id l, App.log_date l) = (habit_id_, date_str).
Proof.
  unfold App.log_of. rewrite andb_true_iff, Z.eqb_eq, String.eqb_eq.
  split; [intros [-> ->]; reflexivity|intros [= -> ->]; now split].
Qed.

(** X13.  The three habit operations keep every habit's streak between 0
    and its best streak. *)
Theorem habit_streaks_stay_consistent (db : App.database) :
  habits_consistent db ->
  (forall current_timestamp user_id name description frequency,
      habits_consistent
        (App.add_habit db current_timestamp user_id name description frequency))
  /\ (forall habit_id_ date_str completed notes,
        habits_consistent (App.log_habit db habit_id_ date_str completed notes))
  /\ (forall habit_id_, habits_consistent (App.delete_habit db habit_id_)).
Proof.
  unfold habits_consistent. intros H. split; [|split].
  - intros. unfold App.add_habit. simpl. apply Forall_app. split; [exact H|].
    repeat constructor; simpl; lia.
  - intros. rewrite log_habit_habits. apply Forall_map.
    eapply Forall_impl; [|exact H]. intros h Hh. cbv beta in Hh |- *.
    destruct (App.habit_id h =? habit_id_); [|exact Hh].
    destruct completed;
      cbn [App.habit_streak App.habit_best_streak App.set_streak
           App.set_best_streak]; lia.
  - intros. unfold App.delete_habit. simpl.
    rewrite Forall_forall in *. intros h Hh. apply filter_In in Hh. now apply H.
Qed.

Lemma habit_streaks_stay_consistent_witness :
  habits_consistent
    (App.log_habit
       (App.add_habit App.init_db "2024-03-08 18:00:00" 1 "Stretch" "" "daily")
       1 "2024-03-09" true "").
Proof.
  destruct (habit_streaks_stay_consistent
              (App.add_habit App.init_db "2024-03-08 18:00:00" 1 "Stretch" ""
                 "daily")) as (_ & Hlog & _).
  - repeat constructor; simpl; lia.
  - apply Hlog.
Defined.

Lemma log_habit_then_get_habit_log_full (db : App.database) (habit_id_ : Z)
    (date_str : string) (completed : bool) (notes : string) :
  exists l,
    App.get_habit_log (App.log_habit db habit_id_ date_str completed notes)
      habit_id_ date_str = Some l
    /\ App.log_habit_id l = habit_id_
    /\ App.log_date l = date_str
    /\ App.log_completed l = completed
    /\ App.log_notes l = notes.
Proof.
  unfold App.get_habit_log. rewrite log_habit_logs.
  destruct (find (App.log_of habit_id_ date_str) (App.rows (App.habit_logs db)))
    as [l0|] eqn:E.
  - rewrite find_map_same_test.
    + rewrite E. simpl. apply find_some in E. destruct E as [_ E].
      rewrite E. eexists. split; [reflexivity|].
      apply log_of_iff in E. inversion E. simpl. auto.
    + intros l. destruct (App.log_of habit_id_ date_str l) eqn:El; [|exact El].
      unfold App.log_of in *. simpl. exact El.
  - rewrite (find_app_last _ _ _ E).
    + eexists. split; [reflexivity|]. simpl. auto.
    + unfold App.log_of. simpl. now rewrite Z.eqb_refl, String.eqb_refl.
Qed.


Lemma log_habit_then_get_habit_log_aux (db : App.database) (habit_id_ : Z)
    (date_str : string) (completed : bool) (notes : string) :
  exists l,
    find (App.log_of habit_id_ date_str)
      (App.rows (App.habit_logs
         (App.log_habit db habit_id_ date_str completed notes))) = Some l.
Proof.
  destruct (log_habit_then_get_habit_log_full db habit_id_ date_str completed notes)
    as (l & Hl & _).
  now exists l.
Qed.

(** X14.  After [log_habit], [get_habit_log] for the same habit and date
    finds a row holding the completed flag and the notes just passed in,
    whether the day had been logged before or not. *)
Theorem log_habit_then_get_habit_log (db : App.database) (habit_id_ : Z)
    (date_str : string) (completed : bool) (notes : string) :
  exists l,
    App.get_habit_log (App.log_habit db habit_id_ date_str completed notes)
      habit_id_ date_str = Some l
    /\ App.log_habit_id l = habit_id_
    /\ App.log_date l = date_str
    /\ App.log_completed l = completed
    /\ App.log_notes l = notes.
Proof. apply log_habit_then_get_habit_log_full. Qed.

Lemma NoDup_key_count {A K : Type} (key : A -> K) (p : A -> bool) (k : K)
    (l : list A) :
  (forall a, p a = true <-> key a = k) ->
  NoDup (map key l) -> (List.length (filter p l) <= 1)%nat.
Proof.
  intros Hp. induction l as [|a l IH]; simpl; intros Hnd; [lia|].
  inversion Hnd as [|? ? Ha Hl]; subst.
  destruct (p a) eqn:E; [|now apply IH].
  assert (filter p l = []) as ->; [|simpl; lia].
  apply Hp in E.
  destruct (filter p l) as [|b l'] eqn:F; [reflexivity|exfalso].
  assert (Hb : In b (filter p l)) by (rewrite F; now left).
  apply filter_In in Hb. destruct Hb as [Hb Hpb]. apply Hp in Hpb.
  apply Ha. rewrite E, <- Hpb. now apply in_map.
Qed.

Lemma log_habit_keeps_one_per_day (db : App.database) (habit_id_ : Z)
    (date_str : string) (completed : bool) (notes : string) :
  logs_one_per_day db ->
  logs_one_per_day (App.log_habit db habit_id_ date_str completed notes).
Proof.
  unfold logs_one_per_day. intros Hnd. rewrite log_habit_logs.
  destruct (find (App.log_of habit_id_ date_str) (App.rows (App.habit_logs db)))
    as [l0|] eqn:E.
  - rewrite map_map.
    erewrite map_ext; [exact Hnd|].
    intros l. simpl. now destruct (App.log_of habit_id_ date_str l).
  - rewrite map_app. simpl.
    eapply Permutation_NoDup; [apply Permutation_cons_append|].
    constructor; [|exact Hnd].
    intros Hin. apply in_map_iff in Hin. destruct Hin as (l & Hkey & Hl).
    apply log_of_iff in Hkey.
    pose proof (find_none _ _ E l Hl). congruence.
Qed.

Lemma log_habit_one_row (db : App.database) (habit_id_ : Z)
    (date_str : string) (completed : bool) (notes : string) :
  logs_one_per_day db ->
  List.length
    (filter (App.log_of habit_id_ date_str)
       (App.rows (App.habit_logs
          (App.log_habit db habit_id_ date_str completed notes)))) = 1%nat.
Proof.
  intros Hnd.
  pose proof (log_habit_keeps_one_per_day db habit_id_ date_str completed notes Hnd)
    as Hnd'.
  pose proof (NoDup_key_count (fun l => (App.log_habit_id l, App.log_date l))
                (App.log_of habit_id_ date_str) (habit_id_, date_str) _
                (log_of_iff habit_id_ date_str) Hnd') as Hle.
  destruct (log_habit_then_get_habit_log_aux db habit_id_ date_str completed notes)
    as (l & Hl).
  apply find_some in Hl.
  assert (Hin : In l (filter (App.log_of habit_id_ date_str)
                        (App.rows (App.habit_logs
                           (App.log_habit db habit_id_ date_str completed notes)))))
    by (apply filter_In; exact Hl).
  destruct (filter _ _) as [|x [|y rest]]; simpl in *; [destruct Hin|reflexivity|lia].
Qed.

End Habits.

Section HabitStreaks.

Lemma log_habit_updates_row (db : App.database) (habit_id_ : Z)
    (date_str : string) (completed : bool) (notes : string) (h : App.habit) :
  In h (App.rows (App.habits db)) -> App.habit_id h = habit_id_ ->
  exists h',
    In h' (App.rows (App.habits
             (App.log_habit db habit_id_ date_str completed notes)))
    /\ App.habit_id h' = habit_id_
    /\ App.habit_streak h' = (if completed then App.habit_streak h + 1 else 0)
    /\ App.habit_best_streak h'
       = (if completed
          then Z.max (App.habit_best_streak h) (App.habit_streak h + 1)
          else App.habit_best_streak h).
Proof.
  intros Hin Hid. rewrite log_habit_habits.
  eexists. split; [apply in_map_iff; exists h; split; [reflexivity|exact Hin]|].
  rewrite Hid, Z.eqb_refl. destruct completed; simpl; auto.
Qed.

(** X15.  [log_habit] on an existing habit: a completed log raises the
    streak by one and lifts the best streak to it if needed; a log that is
    not completed resets the streak to 0 and keeps the best streak.  Habits
    with another key are left as they are. *)
Theorem log_habit_updates_streak (db : App.database) (date_str : string)
    (completed : bool) (notes : string) (h : App.habit) :
  In h (App.rows (App.habits db)) ->
  let db' := App.log_habit db (App.habit_id h) date_str completed notes in
  (exists h',
      In h' (App.rows (App.habits db'))
      /\ App.habit_id h' = App.habit_id h
      /\ App.habit_streak h' = (if completed then App.habit_streak h + 1 else 0)
      /\ App.habit_best_streak h'
         = (if completed
            then Z.max (App.habit_best_streak h) (App.habit_streak h + 1)
            else App.habit_best_streak h))
  /\ (forall x, App.habit_id x <> App.habit_id h ->
                (In x (App.rows (App.habits db')) <->
                 In x (App.rows (App.habits db)))).
Proof.
  intros Hin. cbv zeta. split.
  - now apply log_habit_updates_row.
  - intros x Hx. rewrite log_habit_habits, in_map_iff. split.
    + intros (y & Hy & Hyin).
      destruct (Z.eqb_spec (App.habit_id y) (App.habit_id h)) as [E|E].
      * exfalso. apply Hx. rewrite <- Hy, <- E.
        now destruct completed.
      * now subst.
    + intros Hxin. exists x. split; [|exact Hxin].
      destruct (Z.eqb_spec (App.habit_id x) (App.habit_id h)); [contradiction|].
      reflexivity.
Qed.

Lemma log_habit_updates_streak_witness :
  exists h',
    In h' (App.rows (App.habits
             (App.log_habit
                (App.add_habit App.init_db "2024-03-08 18:00:00" 1 "Stretch" ""
                   "daily")
                1 "2024-03-09" true "")))
    /\ App.habit_id h' = 1
    /\ App.habit_streak h' = 1
    /\ App.habit_best_streak h' = 1.
Proof.
  destruct (log_habit_updates_streak
              (App.add_habit App.init_db "2024-03-08 18:00:00" 1 "Stretch" ""
                 "daily")
              "2024-03-09" true ""
              (App.mk_habit 1 1 "Stretch" "" "daily" 0 0 "2024-03-08 18:00:00"))
    as [Hrow _].
  - simpl. now left.
  - exact Hrow.
Defined.

(** X16.  The streak counts calls, not days.  Logging the same habit as
    completed twice for the same date raises its streak by two, while the
    log table holds exactly one row for that habit and date, carrying the
    notes of the second call. *)
Theorem same_day_logged_twice (db : App.database) (date_str : string)
    (notes1 notes2 : string) (h : App.habit) :
  In h (App.rows (App.habits db)) ->
  logs_one_per_day db ->
  let db2 :=
    App.log_habit
      (App.log_habit db (App.habit_id h) date_str true notes1)
      (App.habit_id h) date_str true notes2 in
  (exists h2,
      In h2 (App.rows (App.habits db2))
      /\ App.habit_id h2 = App.habit_id h
      /\ App.habit_streak h2 = App.habit_streak h + 2)
  /\ List.length
       (filter (App.log_of (App.habit_id h) date_str)
          (App.rows (App.habit_logs db2))) = 1%nat
  /\ exists l,
       App.get_habit_log db2 (App.habit_id h) date_str = Some l
       /\ App.log_notes l = notes2.
Proof.
  intros Hin Hlogs. cbv zeta. split; [|split].
  - destruct (log_habit_updates_row db (App.habit_id h) date_str true notes1 h
                Hin eq_refl) as (h1 & Hin1 & Hid1 & Hs1 & _).
    destruct (log_habit_updates_row _ (App.habit_id h) date_str true notes2 h1
                Hin1 Hid1) as (h2 & Hin2 & Hid2 & Hs2 & _).
    exists h2. split; [exact Hin2|]. split; [exact Hid2|]. lia.
  - apply log_habit_one_row. now apply log_habit_keeps_one_per_day.
  - destruct (log_habit_then_get_habit_log_full
                (App.log_habit db (App.habit_id h) date_str true notes1)
                (App.habit_id h) date_str true notes2)
      as (l & Hl & _ & _ & _ & Hn).
    now exists l.
Qed.

Lemma same_day_logged_twice_witness :
  exists h2,
    In h2 (App.rows (App.habits
             (App.log_habit
                (App.log_habit
                   (App.add_habit App.init_db "2024-03-08 18:00:00" 1 "Stretch"
                      "" "daily")
                   1 "2024-03-09" true "")
                1 "2024-03-09" true "again")))
    /\ App.habit_id h2 = 1
    /\ App.habit_streak h2 = 2.
Proof.
  destruct (same_day_logged_twice
              (App.add_habit App.init_db "2024-03-08 18:00:00" 1 "Stretch" ""
                 "daily")
              "2024-03-09" "" "again"
              (App.mk_habit 1 1 "Stretch" "" "daily" 0 0 "2024-03-08 18:00:00"))
    as [Hrow _].
  - simpl. now left.
  - constructor.
  - exact Hrow.
Defined.

(** X17.  [delete_habit] removes the habit and all of its log rows: no habit
    with that key is left and [get_habit_log] finds nothing for it on any
    date, and [get_habits] no longer lists it.  Other habits, and the log
    rows of other habits, are kept, and no other table is touched. *)
Theorem delete_habit_removes_habit_and_logs (db : App.database) (habit_id_ : Z) :
  let db' := App.delete_habit db habit_id_ in
  (forall h, In h (App.rows (App.habits db')) <->
             In h (App.rows (App.habits db)) /\ App.habit_id h <> habit_id_)
  /\ (forall l, In l (App.rows (App.habit_logs db')) <->
                In l (App.rows (App.habit_logs db))
                /\ App.log_habit_id l <> habit_id_)
  /\ (forall date_str, App.get_habit_log db' habit_id_ date_str = None)
  /\ (forall user_id h, In h (App.get_habits db' user_id) ->
                        App.habit_id h <> habit_id_)
  /\ App.tasks db' = App.tasks db
  /\ App.users db' = App.users db
  /\ App.goals db' = App.goals db
  /\ App.categories db' = App.categories db.
Proof.
  cbv zeta. unfold App.delete_habit, App.delete. simpl.
  split; [|split; [|split; [|split; [|repeat split]]]].
  - intros h. now rewrite filter_In, negb_true_iff, Z.eqb_neq.
  - intros l. now rewrite filter_In, negb_true_iff, Z.eqb_neq.
  - intros date_str. unfold App.get_habit_log. simpl.
    destruct (find _ _) as [l|] eqn:E; [|reflexivity].
    apply find_some in E. destruct E as [Hin Hl].
    apply filter_In in Hin. destruct Hin as [_ Hne].
    unfold App.log_of in Hl. apply andb_true_iff in Hl. destruct Hl as [Hl _].
    rewrite Hl in Hne. discriminate.
  - intros user_id h Hh. unfold App.get_habits in Hh. simpl in Hh.
    apply filter_In in Hh. destruct Hh as [Hh _]. apply filter_In in Hh.
    destruct Hh as [_ Hne]. now apply negb_true_iff, Z.eqb_neq in Hne.
Qed.

End HabitStreaks.

(** * Accounts *)

Section AccountFacts.

Variable isoformat : Z -> string.
Variable sha256_hexdigest : string -> string.

Lemma username_taken_iff (db : App.database) (username : string) :
  existsb (fun u => (App.user_username u =? username)%string)
    (App.rows (App.users db)) = true
  <-> exists u, In u (App.rows (App.users db)) /\ App.user_username u = username.
Proof.
  rewrite existsb_exists. split; intros (u & Hu & Hn); exists u; split; auto;
    now apply String.eqb_eq.
Qed.

Lemma find_username_none (db : App.database) (username : string) :
  existsb (fun u => (App.user_username u =? username)%string)
    (App.rows (App.users db)) = false ->
  find (fun u => (App.user_username u =? username)%string)
    (App.rows (App.users db)) = None.
Proof.
  intros H. destruct (find _ _) as [u|] eqn:E; [|reflexivity].
  apply find_some in E. destruct E as [Hin Hn].
  assert (existsb (fun u => (App.user_username u =? username)%string)
            (App.rows (App.users db)) = true)
    by (apply existsb_exists; now exists u).
  congruence.
Qed.

Lemma find_unique_username (db : App.database) (u : App.user) :
  usernames_unique db -> In u (App.rows (App.users db)) ->
  find (fun x => (App.user_username x =? App.user_username u)%string)
    (App.rows (App.users db)) = Some u.
Proof.
  unfold usernames_unique.
  induction (App.rows (App.users db)) as [|x l IH]; simpl; intros Hnd Hin;
    [destruct Hin|].
  inversion Hnd as [|? ? Hx Hl]; subst.
  destruct Hin as [->|Hin]; [now rewrite String.eqb_refl|].
  destruct (String.eqb_spec (App.user_username x) (App.user_username u)) as [E|E].
  - exfalso. apply Hx. rewrite E. now apply in_map.
  - now apply IH.
Qed.

Lemma register_user_taken (db : App.database) (today : Z)
    (username password email : string) :
  (exists u, In u (App.rows (App.users db)) /\ App.user_username u = username) ->
  App.register_user isoformat sha256_hexdigest db today username password email
  = (false, db).
Proof.
  intros H. apply username_taken_iff in H. unfold App.register_user.
  now rewrite H.
Qed.

Lemma register_user_free (db : App.database) (today : Z)
    (username password email : string) :
  ~ (exists u, In u (App.rows (App.users db)) /\ App.user_username u = username) ->
  let u := App.mk_user (App.seq (App.users db) + 1) username
             (sha256_hexdigest password) email (isoformat today) "UTC" "light" in
  exists db',
    App.register_user isoformat sha256_hexdigest db today username password email
    = (true, db')
    /\ App.users db'
       = App.mk_table (App.rows (App.users db) ++ [u]) (App.seq (App.users db) + 1)
    /\ App.rows (App.categories db')
       = App.rows (App.categories db)
         ++ map (fun '(i, (name, color, icon)) =>
                   App.mk_category (App.seq (App.categories db) + i)
                     (App.seq (App.users db) + 1) name color icon)
              (combine [1; 2; 3; 4; 5] App.default_categories)
    /\ App.seq (App.categories db') = App.seq (App.categories db) + 5
    /\ App.tasks db' = App.tasks db
    /\ App.goals db' = App.goals db
    /\ App.habits db' = App.habits db
    /\ App.habit_logs db' = App.habit_logs db.
Proof.
  intros Hfree. cbv zeta. unfold App.register_user.
  destruct (existsb _ _) eqn:E;
    [exfalso; apply Hfree; now apply username_taken_iff|].
  eexists. split; [reflexivity|].
  simpl. repeat split.
  - rewrite <- !app_assoc. simpl.
    replace (App.seq (App.categories db) + 1 + 1)
      with (App.seq (App.categories db) + 2) by lia.
    replace (App.seq (App.categories db) + 2 + 1)
      with (App.seq (App.categories db) + 3) by lia.
    replace (App.seq (App.categories db) + 3 + 1)
      with (App.seq (App.categories db) + 4) by lia.
    replace (App.seq (App.categories db) + 4 + 1)
      with (App.seq (App.categories db) + 5) by lia.
    reflexivity.
  - lia.
Qed.

Lemma register_then_login_free (db : App.database) (today : Z)
    (username password email : string) :
  ~ (exists u, In u (App.rows (App.users db)) /\ App.user_username u = username) ->
  let u := App.mk_user (App.seq (App.users db) + 1) username
             (sha256_hexdigest password) email (isoformat today) "UTC" "light" in
  exists db',
    App.register_user isoformat sha256_hexdigest db today username password email
    = (true, db')
    /\ App.rows (App.users db') = App.rows (App.users db) ++ [u]
    /\ App.login_user sha256_hexdigest db' username password = Some u.
Proof.
  intros Hfree. cbv zeta.
  destruct (register_user_free db today username password email Hfree)
    as (db' & Hreg & Husers & _).
  exists db'. split; [exact Hreg|]. rewrite Husers. simpl.
  split; [reflexivity|].
  unfold App.login_user. rewrite Husers. simpl.
  assert (E : existsb (fun u => (App.user_username u =? username)%string)
                (App.rows (App.users db)) = false).
  { destruct (existsb _ _) eqn:E; [|reflexivity].
    exfalso. apply Hfree. now apply username_taken_iff. }
  rewrite (find_app_last _ _ _ (find_username_none db username E));
    [|simpl; apply String.eqb_refl].
  unfold App.verify_password, App.hash_password. simpl.
  now rewrite String.eqb_refl.
Qed.

(** X18.  [register_user] fails exactly when the username is taken, and
    then writes nothing.  When it succeeds it appends one account, whose
    password column holds the digest of the password, and [login_user] with
    the same username and password returns that account. *)
Theorem register_then_login (db : App.database) (today : Z)
    (username password email : string) :
  let result :=
    App.register_user isoformat sha256_hexdigest db today username password
      email in
  (fst result = false
   <-> exists u, In u (App.rows (App.users db))
                 /\ App.user_username u = username)
  /\ (fst result = false -> snd result = db)
  /\ (fst result = true ->
      let u := App.mk_user (App.seq (App.users db) + 1) username
                 (sha256_hexdigest password) email (isoformat today)
                 "UTC" "light" in
      App.rows (App.users (snd result)) = App.rows (App.users db) ++ [u]
      /\ App.login_user sha256_hexdigest (snd result) username password = Some u).
Proof.
  cbv zeta.
  destruct (existsb (fun u => (App.user_username u =? username)%string)
              (App.rows (App.users db))) eqn:E.
  - pose proof (proj1 (username_taken_iff db username) E) as Htaken.
    rewrite (register_user_taken db today username password email Htaken).
    simpl. split; [tauto|]. split; [reflexivity|discriminate].
  - assert (Hfree : ~ (exists u, In u (App.rows (App.users db))
                                 /\ App.user_username u = username)).
    { intros H. apply username_taken_iff in H. congruence. }
    destruct (register_user_free db today username password email Hfree)
      as (db' & -> & Husers & _).
    simpl. split; [|split].
    + split; [discriminate|]. intros H. contradiction.
    + discriminate.
    + intros _. rewrite Husers. simpl. split; [reflexivity|].
      unfold App.login_user. rewrite Husers. simpl.
      rewrite (find_app_last _ _ _ (find_username_none db username E));
        [|simpl; apply String.eqb_refl].
      unfold App.verify_password, App.hash_password. simpl.
      now rewrite String.eqb_refl.
Qed.

Lemma register_user_keeps_usernames_unique (db : App.database) (today : Z)
    (username password email : string) :
  usernames_unique db ->
  usernames_unique
    (snd (App.register_user isoformat sha256_hexdigest db today username
            password email)).
Proof.
  intros Huniq.
  destruct (existsb (fun u => (App.user_username u =? username)%string)
              (App.rows (App.users db))) eqn:E.
  - rewrite register_user_taken by now apply username_taken_iff.
    exact Huniq.
  - assert (Hfree : ~ (exists u, In u (App.rows (App.users db))
                                 /\ App.user_username u = username)).
    { intros H. apply username_taken_iff in H. congruence. }
    destruct (register_user_free db today username password email Hfree)
      as (db' & -> & Husers & _).
    unfold usernames_unique. simpl. rewrite Husers. simpl.
    rewrite map_app. simpl.
    eapply Permutation_NoDup; [apply Permutation_cons_append|].
    constructor; [|exact Huniq].
    intros Hin. apply in_map_iff in Hin. destruct Hin as (u & Hn & Hu).
    apply Hfree. now exists u.
Qed.

Lemma login_user_of_account (db : App.database) (u : App.user)
    (password : string) :
  usernames_unique db -> In u (App.rows (App.users db)) ->
  App.login_user sha256_hexdigest db (App.user_username u) password
  = if (sha256_hexdigest password =? App.user_password u)%string
    then Some u else None.
Proof.
  intros Huniq Hu. unfold App.login_user.
  rewrite (find_unique_username db u Huniq Hu). reflexivity.
Qed.

Lemma login_user_unknown (db : App.database) (username password : string) :
  (forall u, In u (App.rows (App.users db)) -> App.user_username u <> username) ->
  App.login_user sha256_hexdigest db username password = None.
Proof.
  intros Hnone. unfold App.login_user.
  destruct (find _ _) as [u|] eqn:E; [|reflexivity].
  apply find_some in E. destruct E as [Hin Hn].
  apply String.eqb_eq in Hn. exfalso. now apply (Hnone u).
Qed.

(** X19.  [register_user] keeps usernames distinct.  While they are,
    [login_user] with the username of an account returns that account
    exactly when the digest of the given password equals the stored one,
    and nothing otherwise; an unknown username gives nothing. *)
Theorem login_user_checks_digest (db : App.database) :
  usernames_unique db ->
  (forall today username password email,
      usernames_unique
        (snd (App.register_user isoformat sha256_hexdigest db today username
                password email)))
  /\ (forall u password,
        In u (App.rows (App.users db)) ->
        App.login_user sha256_hexdigest db (App.user_username u) password
        = if (sha256_hexdigest password =? App.user_password u)%string
          then Some u else None)
  /\ (forall username password,
        (forall u, In u (App.rows (App.users db)) ->
                   App.user_username u <> username) ->
        App.login_user sha256_hexdigest db username password = None).
Proof.
  intros Huniq. split; [|split].
  - intros. now apply register_user_keeps_usernames_unique.
  - intros. now apply login_user_of_account.
  - intros. now apply login_user_unknown.
Qed.

End AccountFacts.

Section AccountsContinued.

Variable isoformat : Z -> string.
Variable sha256_hexdigest : string -> string.

Lemma login_user_checks_digest_witness :
  App.login_user (fun password => password)
    (snd (App.register_user (fun day => str day) (fun password => password)
            App.init_db 739319 "ada" "s3cret" "ada@example.com"))
    "ada" "wrong"
  = None.
Proof.
  destruct (login_user_checks_digest (fun day => str day)
              (fun password => password)
              (snd (App.register_user (fun day => str day)
                      (fun password => password)
                      App.init_db 739319 "ada" "s3cret" "ada@example.com")))
    as (_ & Hlogin & _).
  - repeat constructor. simpl. intros [].
  - apply (Hlogin (App.mk_user 1 "ada" "s3cret" "ada@example.com" "739319"
                     "UTC" "light") "wrong"%string).
    simpl. now left.
Defined.

Lemma filter_none {A : Type} (p : A -> bool) (l : list A) :
  (forall a, In a l -> p a = false) -> filter p l = [].
Proof.
  induction l as [|a l IH]; simpl; intros H; [reflexivity|].
  rewrite (H a (or_introl eq_refl)). apply IH. intros; apply H; now right.
Qed.

(** X20.  When categories belong to created accounts only, a successful
    registration gives the new account exactly the five default categories
    (Work, Personal, Health, Learning, Hobbies, in this order), and
    categories still belong to created accounts only. *)
Theorem register_user_creates_default_categories (db : App.database)
    (today : Z) (username password email : string) :
  categories_of_created_users db ->
  let result :=
    App.register_user isoformat sha256_hexdigest db today username password
      email in
  fst result = true ->
  map (fun c => (App.category_name c, App.category_color c, App.category_icon c))
    (App.get_categories (snd result) (App.seq (App.users db) + 1))
  = App.default_categories
  /\ categories_of_created_users (snd result).
Proof.
  intros Hcats. cbv zeta. intros Hok.
  destruct (existsb (fun u => (App.user_username u =? username)%string)
              (App.rows (App.users db))) eqn:E.
  - rewrite register_user_taken in Hok by now apply username_taken_iff.
    discriminate.
  - assert (Hfree : ~ (exists u, In u (App.rows (App.users db))
                                 /\ App.user_username u = username)).
    { intros H. apply username_taken_iff in H. congruence. }
    destruct (register_user_free isoformat sha256_hexdigest db today username
                password email Hfree)
      as (db' & -> & Husers & Hrows & _).
    simpl. unfold categories_of_created_users in *. split.
    + unfold App.get_categories. rewrite Hrows, filter_app.
      rewrite filter_none.
      * simpl. rewrite !Z.eqb_refl. reflexivity.
      * intros c Hc. rewrite Forall_forall in Hcats. specialize (Hcats c Hc).
        apply Z.eqb_neq. lia.
    + rewrite Hrows, Husers. simpl. apply Forall_app. split.
      * eapply Forall_impl; [|exact Hcats]. simpl. intros; lia.
      * repeat constructor; simpl; lia.
Qed.

(** X21.  When usernames are distinct, the "Try Demo" button raises a
    [TypeError] exactly when an account named "demo" exists whose stored
    password is not the digest of "demo123": the registration of the demo
    account fails and the second login returns nothing.  In every other
    case it ends on the dashboard, logged in as "demo". *)
Theorem try_demo_fails_on_foreign_demo_account (db : App.database)
    (today : Z) (s : App.session) :
  usernames_unique db ->
  (App.click_try_demo isoformat sha256_hexdigest db today s
   = App.Raised App.TypeError
   <-> exists u, In u (App.rows (App.users db))
                 /\ App.user_username u = "demo"%string
                 /\ App.user_password u <> sha256_hexdigest "demo123")
  /\ (forall db' s' message,
        App.click_try_demo isoformat sha256_hexdigest db today s
        = App.Done (db', s', message) ->
        App.session_username s' = Some "demo"%string
        /\ App.session_page s' = "dashboard"%string
        /\ exists u, In u (App.rows (App.users db'))
                     /\ App.user_username u = "demo"%string
                     /\ App.session_user_id s' = Some (App.user_id u)).
Proof.
  intros Huniq. unfold App.click_try_demo.
  destruct (existsb (fun u => (App.user_username u =? "demo")%string)
              (App.rows (App.users db))) eqn:E.
  - pose proof (proj1 (username_taken_iff db "demo") E) as (u & Hu & Hname).
    pose proof (login_user_of_account sha256_hexdigest db u "demo123"%string
                  Huniq Hu) as Hl.
    rewrite Hname in Hl. rewrite Hl.
    destruct (String.eqb_spec (sha256_hexdigest "demo123") (App.user_password u))
      as [Hpw|Hpw].
    + simpl. split.
      * split; [discriminate|]. intros (u' & Hu' & Hn' & Hp').
        exfalso. apply Hp'.
        assert (u' = u) as ->; [|now symmetry].
        apply (NoDup_map_same_key App.user_username (App.rows (App.users db)));
          auto. congruence.
      * intros db' s' message H. inversion H; subst; clear H. simpl.
        split; [now rewrite Hname|]. split; [reflexivity|]. now exists u.
    + rewrite register_user_taken by (now exists u). simpl. rewrite Hl.
      split; [|discriminate].
      split; [|reflexivity]. intros _. exists u. repeat split; auto.
  - assert (Hfree : ~ (exists u, In u (App.rows (App.users db))
                                 /\ App.user_username u = "demo"%string)).
    { intros H. apply username_taken_iff in H. congruence. }
    rewrite (login_user_unknown sha256_hexdigest db "demo" "demo123");
      [|intros u Hu Hn; apply Hfree; now exists u].
    destruct (register_then_login_free isoformat sha256_hexdigest db today
                "demo" "demo123" "demo@example.com" Hfree)
      as (db' & Hreg & Hrows & Hlogin).
    rewrite Hreg. cbn [snd]. rewrite Hlogin. split.
    + split; [discriminate|]. intros (u & Hu & Hn & _). exfalso.
      apply Hfree. now exists u.
    + intros db'' s' message H. inversion H; subst; clear H. simpl.
      split; [reflexivity|]. split; [reflexivity|].
      eexists. split; [rewrite Hrows; apply in_or_app; right; now left|].
      split; reflexivity.
Qed.

End AccountsContinued.

Lemma register_user_creates_default_categories_witness :
  map (fun c => (App.category_name c, App.category_color c, App.category_icon c))
    (App.get_categories
       (snd (App.register_user (fun day => str day) (fun password => password)
               App.init_db 739319 "ada" "s3cret" "ada@example.com"))
       (App.seq (App.users App.init_db) + 1))
  = App.default_categories
  /\ categories_of_created_users
       (snd (App.register_user (fun day => str day) (fun password => password)
               App.init_db 739319 "ada" "s3cret" "ada@example.com")).
Proof.
  apply (register_user_creates_default_categories (fun day => str day)
           (fun password => password) App.init_db 739319 "ada" "s3cret"
           "ada@example.com").
  - constructor.
  - reflexivity.
Defined.


Lemma try_demo_fails_on_foreign_demo_account_witness :
  App.click_try_demo (fun day => str day) (fun password => password)
    (snd (App.register_user (fun day => str day) (fun password => password)
            App.init_db 739319 "demo" "hunter2" "someone@example.com"))
    739320 (App.mk_session None None "login" "light")
  = App.Raised App.TypeError.
Proof.
  destruct (try_demo_fails_on_foreign_demo_account (fun day => str day)
              (fun password => password)
              (snd (App.register_user (fun day => str day)
                      (fun password => password)
                      App.init_db 739319 "demo" "hunter2" "someone@example.com"))
              739320 (App.mk_session None None "login" "light"))
    as [[_ Hraise] _].
  - repeat constructor. simpl. intros [].
  - apply Hraise.
    exists (App.mk_user 1 "demo" "hunter2" "someone@example.com" "739319"
              "UTC" "light").
    split; [simpl; now left|]. split; [reflexivity|discriminate].
Defined.

(** * Goals and the Kanban view *)

Section Goals.

(** X22.  The three goal operations keep every goal's completed flag in
    step with its progress: the flag is 1 when the progress is at least
    100 and 0 when it is below. *)
Theorem goal_completed_follows_progress (db : App.database) :
  goals_consistent db ->
  (forall current_timestamp user_id title description target_date,
      goals_consistent
        (App.add_goal db current_timestamp user_id title description target_date))
  /\ (forall goal_id_ progress,
        goals_consistent (App.update_goal_progress db goal_id_ progress))
  /\ (forall goal_id_, goals_consistent (App.delete_goal db goal_id_)).
Proof.
  unfold goals_consistent. intros H. split; [|split].
  - intros. unfold App.add_goal. simpl. apply Forall_app. split; [exact H|].
    constructor; [|constructor]. right. simpl. split; [reflexivity|].
    unfold Qlt. simpl. lia.
  - intros. unfold App.update_goal_progress, App.update. simpl.
    apply Forall_map. eapply Forall_impl; [|exact H].
    intros g Hg. cbv beta in Hg |- *.
    destruct (App.goal_id g =? goal_id_); [|exact Hg]. simpl.
    destruct (Qle_bool 100 progress) eqn:E.
    + left. split; [reflexivity|]. now apply Qle_bool_iff.
    + right. split; [reflexivity|]. apply Qnot_le_lt. intros Hle.
      apply Qle_bool_iff in Hle. congruence.
  - intros. unfold App.delete_goal. simpl.
    rewrite Forall_forall in *. intros g Hg. apply filter_In in Hg. now apply H.
Qed.

Lemma goal_completed_follows_progress_witness :
  goals_consistent
    (App.update_goal_progress
       (App.add_goal App.init_db "2024-03-08 18:00:00" 1 "Finish the thesis" ""
          "2024-06-30")
       1 100).
Proof.
  destruct (goal_completed_follows_progress
              (App.add_goal App.init_db "2024-03-08 18:00:00" 1
                 "Finish the thesis" "" "2024-06-30")) as (_ & Hupdate & _).
  - constructor; [|constructor]. right. simpl. split; [reflexivity|].
    unfold Qlt. simpl. lia.
  - apply Hupdate.
Defined.

(** X24.  The Kanban board shows every task exactly once: the "To Do"
    column holds the tasks whose completed flag is 0, the "Completed"
    column the others, both in the order given, and the "In Progress"
    column is always empty. *)
Theorem kanban_columns_partition (tasks : list App.task) :
  Permutation tasks (App.todo_tasks tasks ++ App.completed_tasks tasks)
  /\ App.in_progress_tasks tasks = []
  /\ Forall (fun t => App.task_completed t = 0) (App.todo_tasks tasks)
  /\ Forall (fun t => App.task_completed t <> 0) (App.completed_tasks tasks)
  /\ (forall t, In t tasks ->
                (In t (App.todo_tasks tasks) /\ ~ In t (App.completed_tasks tasks))
                \/ (~ In t (App.todo_tasks tasks)
                    /\ In t (App.completed_tasks tasks))).
Proof.
  unfold App.todo_tasks, App.completed_tasks.
  split; [|split; [reflexivity|split; [|split]]].
  - induction tasks as [|t l IH]; simpl; [constructor|].
    destruct (App.task_completed t =? 0); simpl.
    + now apply perm_skip.
    + now apply Permutation_cons_app.
  - apply Forall_forall. intros t Ht. apply filter_In in Ht.
    destruct Ht as [_ Ht]. rewrite negb_involutive in Ht. now apply Z.eqb_eq.
  - apply Forall_forall. intros t Ht. apply filter_In in Ht.
    destruct Ht as [_ Ht]. apply negb_true_iff in Ht. now apply Z.eqb_neq.
  - intros t Ht. rewrite !filter_In.
    destruct (App.task_completed t =? 0); simpl; [left|right]; split; auto;
      intros [_ H]; discriminate.
Qed.

End Goals.

(** * The routines on the rows their queries deliver *)

Section SortedPresentations.

(** A list sorted by an order that is antisymmetric on its elements is the
    only sorted arrangement of those elements. *)
Lemma sorted_arrangement_unique {A : Type} (R : A -> A -> Prop)
    (sorted sorted' : list A) :
  (forall a b, In a sorted -> In b sorted -> R a b -> R b a -> a = b) ->
  StronglySorted R sorted -> StronglySorted R sorted' ->
  Permutation sorted sorted' -> sorted = sorted'.
Proof.
  revert sorted'.
  induction sorted as [|a l IH]; intros l' Hanti Hl Hl' Hperm.
  - now apply Permutation_nil in Hperm.
  - destruct l' as [|b l'].
    { apply Permutation_sym, Permutation_nil in Hperm. discriminate. }
    apply StronglySorted_inv in Hl. destruct Hl as [Hl Ha].
    apply StronglySorted_inv in Hl'. destruct Hl' as [Hl' Hb].
    rewrite Forall_forall in Ha, Hb.
    assert (Hab : a = b).
    { assert (Hina : In a (b :: l'))
        by (apply (Permutation_in _ Hperm); now left).
      assert (Hinb : In b (a :: l))
        by (apply (Permutation_in _ (Permutation_sym Hperm)); now left).
      destruct Hina as [E|Hina]; [now symmetry|].
      destruct Hinb as [E|Hinb]; [exact E|].
      apply Hanti; [now left|now right|now apply Ha|now apply Hb]. }
    subst b. f_equal. apply IH; auto.
    + intros x y Hx Hy. apply Hanti; now right.
    + now apply Permutation_cons_inv with a.
Qed.

Lemma StronglySorted_by_column {A B : Type} (column : A -> B)
    (R : B -> B -> Prop) (keys : list A) :
  StronglySorted (fun a b => R (column a) (column b)) keys ->
  StronglySorted R (map column keys).
Proof.
  induction 1 as [|a l _ IH Ha]; simpl; constructor; [exact IH|].
  now apply Forall_map.
Qed.

Lemma later_or_same_trans (a b c : day_row) :
  later_or_same a b -> later_or_same b c -> later_or_same a c.
Proof.
  unfold later_or_same. intros Hab Hbc.
  now apply (string_leb_trans (day_date c) (day_date b) (day_date a)).
Qed.

Lemma sort_by_day_desc_strongly_sorted (days : list day_row) :
  StronglySorted later_or_same (sort_by_day_desc days).
Proof.
  apply Sorted_StronglySorted; [|apply sort_by_day_desc_sorted].
  intros a b c. apply later_or_same_trans.
Qed.

(** The tasks enter the streak query through three columns only. *)
Lemma activity_In (db : App.database) (user_id : Z) (d : string) (c : Z) :
  In (user_id, d, c) (map activity (App.rows (App.tasks db)))
  <-> exists t, In t (user_tasks db user_id)
                /\ App.task_date t = d /\ App.task_completed t = c.
Proof.
  rewrite in_map_iff. unfold activity. split.
  - intros (t & E & Ht). inversion E; subst. exists t.
    split; [|split; reflexivity]. now apply user_tasks_In.
  - intros (t & Ht & Hd & Hc). apply user_tasks_In in Ht.
    destruct Ht as [Ht Hu]. exists t. split; [congruence|exact Ht].
Qed.

Lemma streak_dates_activity (db : App.database) (user_id : Z) (d : string) :
  In d (streak_dates db user_id)
  <-> exists c, In (user_id, d, c) (map activity (App.rows (App.tasks db))).
Proof.
  rewrite streak_dates_In. split.
  - intros (t & Ht & Hu & Hd). exists (App.task_completed t).
    apply in_map_iff. exists t. split; [|exact Ht].
    unfold activity. congruence.
  - intros (c & Hin). apply activity_In in Hin.
    destruct Hin as (t & Ht & Hd & _). apply user_tasks_In in Ht.
    destruct Ht as [Ht Hu]. now exists t.
Qed.

Lemma streak_flag_activity (db : App.database) (user_id : Z) (d : string) :
  (streak_flag (user_tasks db user_id) d = 1
   /\ In (user_id, d, 1) (map activity (App.rows (App.tasks db))))
  \/ (streak_flag (user_tasks db user_id) d = 0
      /\ ~ In (user_id, d, 1) (map activity (App.rows (App.tasks db)))).
Proof.
  destruct (streak_flag_cases (user_tasks db user_id) d)
    as [(E & t & Ht & Hd & Hc)|(E & Hnone)].
  - left. split; [exact E|]. apply activity_In. now exists t.
  - right. split; [exact E|]. intros Hin. apply activity_In in Hin.
    destruct Hin as (t & Ht & Hd & Hc). now apply (Hnone t Ht Hd).
Qed.

Section TwoTables.

Variables (db db' : App.database) (user_id : Z).

Hypothesis same_activity :
  Permutation (map activity (App.rows (App.tasks db')))
              (map activity (App.rows (App.tasks db))).

Lemma streak_dates_same : streak_dates db' user_id = streak_dates db user_id.
Proof.
  apply (sorted_arrangement_unique (fun a b => String.leb b a = true)).
  - intros a b _ _ Hba Hab. now apply String.leb_antisym.
  - apply streak_dates_sorted.
  - apply streak_dates_sorted.
  - apply NoDup_Permutation; try apply sorted_group_keys_NoDup.
    intros d. rewrite !streak_dates_activity.
    split; intros (c & Hin); exists c.
    + exact (Permutation_in _ same_activity Hin).
    + exact (Permutation_in _ (Permutation_sym same_activity) Hin).
Qed.

Lemma streak_flag_same (d : string) :
  streak_flag (user_tasks db' user_id) d = streak_flag (user_tasks db user_id) d.
Proof.
  destruct (streak_flag_activity db' user_id d) as [[E Hin]|[E Hout]];
    destruct (streak_flag_activity db user_id d) as [[E' Hin']|[E' Hout']];
    rewrite E, E'; try reflexivity; exfalso.
  - exact (Hout' (Permutation_in _ same_activity Hin)).
  - exact (Hout (Permutation_in _ (Permutation_sym same_activity) Hin')).
Qed.

Lemma streak_rows_same : App.streak_rows db' user_id = App.streak_rows db user_id.
Proof.
  rewrite !streak_rows_eq, streak_dates_same. f_equal.
  apply map_ext. intros d. now rewrite streak_flag_same.
Qed.

End TwoTables.

(** Whatever the order in which the per-day records are presented, sorting
    them by day, most recent first, gives the rows of the query. *)
Lemma sort_by_day_desc_daily_activity (db : App.database) (user_id : Z)
    (records : list day_row) :
  Permutation records (daily_activity db user_id) ->
  App.streak_rows db user_id = firstn 30 (sort_by_day_desc records).
Proof.
  intros Hperm. rewrite streak_rows_eq. f_equal. symmetry.
  set (row := fun d => {| day_date := d;
                          productive_day := streak_flag (user_tasks db user_id) d |}).
  assert (Hrows : Permutation (sort_by_day_desc records)
                    (map row (streak_dates db user_id))).
  { eapply perm_trans; [apply Permutation_sym, sort_by_day_desc_perm|].
    eapply perm_trans; [exact Hperm|].
    unfold daily_activity, streak_dates. fold row.
    apply Permutation_map, order_by_perm. }
  apply (sorted_arrangement_unique later_or_same); [| | |exact Hrows].
  - intros a b Ha Hb Hab Hba.
    apply (Permutation_in _ Hrows), in_map_iff in Ha.
    apply (Permutation_in _ Hrows), in_map_iff in Hb.
    destruct Ha as (da & <- & _). destruct Hb as (db0 & <- & _).
    unfold later_or_same in Hab, Hba. simpl in Hab, Hba.
    now rewrite (String.leb_antisym _ _ Hba Hab).
  - apply sort_by_day_desc_strongly_sorted.
  - apply StronglySorted_by_column.
    exact (streak_dates_sorted db user_id).
Qed.

End SortedPresentations.

(** C4.  [get_streak_data] is robust to the order of its records.  Two task
    tables that hold the same activity (user, day and completed flag of each
    task), entered in whatever order, give the same streak; and for every
    presentation of the per-day records of the table, the result is the
    result of the loop on those records sorted by day, most recent first,
    cut at the thirty rows the query keeps.  The sorting is the query's
    [ORDER BY date DESC], inside the function. *)
Theorem get_streak_data_order_robust (db db' : App.database) (user_id : Z)
    (records : list day_row) :
  Permutation (map activity (App.rows (App.tasks db')))
              (map activity (App.rows (App.tasks db))) ->
  Permutation records (daily_activity db user_id) ->
  App.get_streak_data db' user_id = App.get_streak_data db user_id
  /\ App.get_streak_data db user_id
     = get_streak_data (firstn 30 (sort_by_day_desc records))
  /\ ((List.length records <= 30)%nat ->
      App.get_streak_data db user_id
      = get_streak_data (sort_by_day_desc records)).
Proof.
  intros Hsame Hrecords. unfold App.get_streak_data.
  rewrite (streak_rows_same db db' user_id Hsame).
  rewrite (sort_by_day_desc_daily_activity db user_id records Hrecords).
  split; [reflexivity|split; [reflexivity|]].
  intros Hlen. rewrite firstn_all2; [reflexivity|].
  now rewrite <- (Permutation_length (sort_by_day_desc_perm records)).
Qed.

Lemma get_streak_data_order_robust_witness :
  App.get_streak_data three_days_latest_first 1 = App.get_streak_data three_days 1
  /\ App.get_streak_data three_days 1
     = get_streak_data
         (firstn 30
            (sort_by_day_desc
               [mk_day_row "2024-03-08" 1; mk_day_row "2024-03-07" 0;
                mk_day_row "2024-03-09" 1]))
  /\ ((List.length [mk_day_row "2024-03-08" 1; mk_day_row "2024-03-07" 0;
                    mk_day_row "2024-03-09" 1] <= 30)%nat ->
      App.get_streak_data three_days 1
      = get_streak_data
          (sort_by_day_desc
             [mk_day_row "2024-03-08" 1; mk_day_row "2024-03-07" 0;
              mk_day_row "2024-03-09" 1])).
Proof.
  apply (get_streak_data_order_robust three_days three_days_latest_first 1).
  - vm_compute.
    apply (perm_trans
             (l' := [(1, "2024-03-08"%string, 1); (1, "2024-03-09"%string, 1);
                     (1, "2024-03-07"%string, 0)])).
    + apply perm_swap.
    + apply (perm_trans
               (l' := [(1, "2024-03-08"%string, 1); (1, "2024-03-07"%string, 0);
                       (1, "2024-03-09"%string, 1)])).
      * apply perm_skip, perm_swap.
      * apply perm_swap.
  - vm_compute. apply perm_swap.
Defined.

(** The three days give a streak of two, while the loop alone, handed the
    per-day records oldest first, would stop at the first of them. *)
Example get_streak_data_three_days :
  daily_activity three_days 1
  = [mk_day_row "2024-03-07" 0; mk_day_row "2024-03-08" 1;
     mk_day_row "2024-03-09" 1]
  /\ get_streak_data (daily_activity three_days 1) = 0
  /\ App.get_streak_data three_days 1 = 2
  /\ App.get_streak_data three_days_latest_first 1 = 2.
Proof. repeat split; vm_compute; reflexivity. Qed.

Section ZeroTotal.

Variable isoformat : Z -> string.

Lemma get_productivity_stats_zero_total
    (db : App.database) (today user_id days : Z) :
  sum (map total_tasks
         (App.get_productivity_stats isoformat db today user_id days)) = 0 ->
  App.get_productivity_stats isoformat db today user_id days = [].
Proof.
  intros Hzero.
  pose proof (get_productivity_stats_counts isoformat db today user_id days)
    as Hrows.
  destruct (App.get_productivity_stats isoformat db today user_id days)
    as [|r stats] eqn:E; [reflexivity|exfalso].
  assert (Hpos : 0 < sum (map total_tasks (r :: stats)))
    by (apply (sum_total_tasks_positive _ Hrows); discriminate).
  lia.
Qed.

(** C1.  Whenever the statistics of the window sum to a total of zero
    tasks, the output holds no completion-rate recommendation, neither tip
    nor success, whatever the overdue count and the duration averages are;
    this holds for the rows of a window of any length combined with any
    overdue count and averages, and for the function run on the database
    with its window of seven days. *)
Theorem no_completion_rate_rec_on_zero_total
    (db : App.database) (today user_id days : Z)
    (overdue_count : Z) (time_data : option Q * option Q) :
  sum (map total_tasks
         (App.get_productivity_stats isoformat db today user_id days)) = 0 ->
  (exists recs,
      get_smart_recommendations overdue_count
        (App.get_productivity_stats isoformat db today user_id days) time_data
      = Returns recs
      /\ Forall (fun r => rec_type r <> "tip"%string
                          /\ rec_type r <> "success"%string) recs)
  /\ (days = 7 ->
      exists recs,
        App.get_smart_recommendations isoformat db today user_id = Returns recs
        /\ Forall (fun r => rec_type r <> "tip"%string
                            /\ rec_type r <> "success"%string) recs).
Proof.
  intros Hzero. apply get_productivity_stats_zero_total in Hzero.
  assert (Hnone : forall o td,
             exists recs,
               get_smart_recommendations o [] td = Returns recs
               /\ Forall (fun r => rec_type r <> "tip"%string
                                   /\ rec_type r <> "success"%string) recs).
  { intros o td. rewrite get_smart_recommendations_rules.
    eexists. split; [reflexivity|].
    assert (H : Forall (fun r => ~ completion_rate_rec r)
                  (overdue_rule o ++ completion_rule [] ++ time_rule td))
      by now apply no_completion_rate_rec_iff.
    eapply Forall_impl; [|exact H]. unfold completion_rate_rec.
    intros r Hr. split; intros E; apply Hr; [now left|now right]. }
  split.
  - rewrite Hzero. apply Hnone.
  - intros ->. unfold App.get_smart_recommendations. cbv zeta.
    rewrite Hzero. apply Hnone.
Qed.

End ZeroTotal.

Lemma no_completion_rate_rec_on_zero_total_witness :
  (exists recs,
      get_smart_recommendations 4
        (App.get_productivity_stats isoformat stale_tasks 738954 1 7)
        (Some 100%Q, Some 50%Q)
      = Returns recs
      /\ Forall (fun r => rec_type r <> "tip"%string
                          /\ rec_type r <> "success"%string) recs)
  /\ (7 = 7 ->
      exists recs,
        App.get_smart_recommendations isoformat stale_tasks 738954 1
        = Returns recs
        /\ Forall (fun r => rec_type r <> "tip"%string
                            /\ rec_type r <> "success"%string) recs).
Proof.
  apply (no_completion_rate_rec_on_zero_total isoformat stale_tasks 738954 1 7
           4 (Some 100%Q, Some 50%Q)).
  vm_compute. reflexivity.
Defined.

(** On that database, on 2024-03-09: user 1 has no task in the window, one
    overdue task and averages of 90 and 30 minutes, so the warning and the
    insight are emitted and nothing about the completion rate. *)
Example get_smart_recommendations_stale_tasks :
  isoformat 738954 = "2024-03-09"%string
  /\ isoformat (738954 - (7 - 1)) = "2024-03-03"%string
  /\ App.get_productivity_stats isoformat stale_tasks 738954 1 7 = []
  /\ App.get_smart_recommendations isoformat stale_tasks 738954 1
     = Returns [overdue_alert 1; time_estimation].
Proof. repeat split; vm_compute; reflexivity. Qed.




(** The averages 22.8 and 15.2: in exact arithmetic [22.8 = 15.2 * 1.5], but
    the binary64 product is 22.799999999999997, below the double 22.8, and
    the insight is emitted. *)
Example get_smart_recommendations_rounded_product :
  (inject_Z (22 + 23 + 23 + 23 + 23) / 5
   == (inject_Z (15 + 15 + 15 + 15 + 16) / 5) * (15 # 10))%Q
  /\ App.get_smart_recommendations isoformat underestimated_tasks 738954 1
     = Returns
         [ {| rec_type := "success";
              rec_title := "🎉 Great Performance!";
              rec_message :=
                "Excellent completion rate of 100.0%! Keep up the great work!";
              rec_action := "Maintain momentum" |};
           time_estimation ].
Proof. split; vm_compute; reflexivity. Qed.

(** 23 of 80: the double 0.2875 times 100 is 28.749999999999996, printed
    28.7%. *)
Example format_percent1_23_of_80 :
  format_percent1 (23 # 80) = "28.7%"%string
  /\ format_percent1 (3 # 10) = "30.0%"%string
  /\ format_percent1 (1 # 8) = "12.5%"%string
  /\ format_percent1 0 = "0.0%"%string
  /\ format_percent1 2 = "200.0%"%string.
Proof. repeat split; vm_compute; reflexivity. Qed.
